(** * File-storage: the content-addressed blob store [FsBlobStorage]

    A shallow embedding of [src/fs-blob-storage.js] together with models of
    the Node.js services it calls: [path] (POSIX flavour), [crypto]'s MD5
    hash object, and the part of [fs] that the store uses.  *)

From Stdlib Require Import ZArith Ascii.
From Stdlib.Strings Require Import Byte.
From Stdlib Require String.
From stdpp Require Import base tactics option list gmap strings.

Local Open Scope Z_scope.

(** ** Strings

    JavaScript strings are modelled by [string]; only ASCII content occurs
    in identifiers and in the paths built from them. *)

Module Str.

Definition slash : ascii := "/"%char.
Definition dot : ascii := "."%char.

(** [String.prototype.slice(start, end)] for non-negative integer
    arguments: indices past the end are clamped to the length, and an
    empty string is returned when [end <= start]. *)
Definition slice (s : string) (start end_ : nat) : string :=
  String.substring start (end_ - start) s.

Definition is_slash (c : ascii) : bool := bool_decide (c = slash).

Definition starts_with_slash (s : string) : bool :=
  match s with
  | String c _ => is_slash c
  | EmptyString => false
  end.

Fixpoint ends_with_slash (s : string) : bool :=
  match s with
  | EmptyString => false
  | String c EmptyString => is_slash c
  | String _ s' => ends_with_slash s'
  end.

(** [s.split('/')]: always a non-empty list. *)
Fixpoint split (s : string) : list string :=
  match s with
  | EmptyString => [EmptyString]
  | String c s' =>
      if is_slash c then EmptyString :: split s'
      else match split s' with
           | [] => [String c EmptyString]
           | x :: xs => String c x :: xs
           end
  end.

(** [parts.join('/')]. *)
Definition join_slash (parts : list string) : string :=
  String.concat "/" parts.

Fixpoint no_slash (s : string) : bool :=
  match s with
  | EmptyString => true
  | String c s' => negb (is_slash c) && no_slash s'
  end.

Definition is_empty (s : string) : bool :=
  match s with EmptyString => true | _ => false end.

End Str.

(** ** [path] (POSIX) *)

Module Path.
Import Str.

(** One iteration of the segment loop of Node's [normalizeString]; [res]
    is the stack of segments kept so far, most recent first. *)
Definition norm_step (allowAboveRoot : bool) (res : list string)
    (seg : string) : list string :=
  if bool_decide (seg = "") || bool_decide (seg = ".") then res
  else if bool_decide (seg = "..") then
    match res with
    | last :: rest =>
        if bool_decide (last = "..")
        then (if allowAboveRoot then ".." :: res else res)
        else rest
    | [] => if allowAboveRoot then [".."] else []
    end
  else seg :: res.

Definition normalizeString (allowAboveRoot : bool) (segs : list string)
    : list string :=
  rev (fold_left (norm_step allowAboveRoot) segs []).

Definition isAbsolute (p : string) : bool := starts_with_slash p.

(** The segments that survive normalisation of [p]. *)
Definition components (p : string) : list string :=
  normalizeString (negb (isAbsolute p)) (split p).

(** [path.normalize]. *)
Definition normalize (p : string) : string :=
  if is_empty p then "."
  else
    let body := join_slash (components p) in
    if is_empty body then
      (if isAbsolute p then "/"
       else if ends_with_slash p then "./" else ".")
    else
      let body := if ends_with_slash p then body +:+ "/" else body in
      if isAbsolute p then "/" +:+ body else body.

(** [path.join(...args)]: zero-length arguments are skipped, the others
    are glued with a slash and the result is normalised. *)
Definition join (args : list string) : string :=
  match filter (λ a, a ≠ "") args with
  | [] => "."
  | parts => normalize (join_slash parts)
  end.

Fixpoint drop_while {A} (f : A → bool) (l : list A) : list A :=
  match l with
  | [] => []
  | x :: l' => if f x then drop_while f l' else l
  end.

(** [path.dirname]: the scan runs from the last character down to index
    1, skips trailing slashes, then the last segment, and cuts at the
    slash it meets. *)
Definition dirname (p : string) : string :=
  match p with
  | EmptyString => "."
  | String c0 rest =>
      let r := rev (String.list_ascii_of_string rest) in
      let r1 := drop_while is_slash r in
      let r2 := drop_while (λ c, negb (is_slash c)) r1 in
      match r2 with
      | [] => if is_slash c0 then "/" else "."
      | _ :: r3 =>
          if is_slash c0 && is_empty (String.string_of_list_ascii r3)
          then "//"
          else String c0 (String.string_of_list_ascii (rev r3))
      end
  end.

(** A path rendered from its root flag and its list of segments. *)
Definition render (absolute : bool) (segs : list string) : string :=
  (if absolute then "/" else "") +:+ join_slash segs.

End Path.

(** ** [crypto]: the MD5 hash object (RFC 1321)

    [crypto.createHash('md5')] yields a mutable accumulator; [update]
    absorbs bytes and [digest('hex')] finishes.  The model threads the
    accumulator as a value. *)

Module Crypto.

Definition w32 (x : Z) : Z := x mod 4294967296.
Definition not32 (x : Z) : Z := Z.lxor x 4294967295.
Definition rotl32 (x n : Z) : Z :=
  w32 (Z.lor (Z.shiftl x n) (Z.shiftr x (32 - n))).

Definition K : list Z :=
  [ 0xd76aa478; 0xe8c7b756; 0x242070db; 0xc1bdceee;
    0xf57c0faf; 0x4787c62a; 0xa8304613; 0xfd469501;
    0x698098d8; 0x8b44f7af; 0xffff5bb1; 0x895cd7be;
    0x6b901122; 0xfd987193; 0xa679438e; 0x49b40821;
    0xf61e2562; 0xc040b340; 0x265e5a51; 0xe9b6c7aa;
    0xd62f105d; 0x02441453; 0xd8a1e681; 0xe7d3fbc8;
    0x21e1cde6; 0xc33707d6; 0xf4d50d87; 0x455a14ed;
    0xa9e3e905; 0xfcefa3f8; 0x676f02d9; 0x8d2a4c8a;
    0xfffa3942; 0x8771f681; 0x6d9d6122; 0xfde5380c;
    0xa4beea44; 0x4bdecfa9; 0xf6bb4b60; 0xbebfbc70;
    0x289b7ec6; 0xeaa127fa; 0xd4ef3085; 0x04881d05;
    0xd9d4d039; 0xe6db99e5; 0x1fa27cf8; 0xc4ac5665;
    0xf4292244; 0x432aff97; 0xab9423a7; 0xfc93a039;
    0x655b59c3; 0x8f0ccc92; 0xffeff47d; 0x85845dd1;
    0x6fa87e4f; 0xfe2ce6e0; 0xa3014314; 0x4e0811a1;
    0xf7537e82; 0xbd3af235; 0x2ad7d2bb; 0xeb86d391 ].

Definition shifts : list Z :=
  [ 7; 12; 17; 22; 7; 12; 17; 22; 7; 12; 17; 22; 7; 12; 17; 22;
    5;  9; 14; 20; 5;  9; 14; 20; 5;  9; 14; 20; 5;  9; 14; 20;
    4; 11; 16; 23; 4; 11; 16; 23; 4; 11; 16; 23; 4; 11; 16; 23;
    6; 10; 15; 21; 6; 10; 15; 21; 6; 10; 15; 21; 6; 10; 15; 21 ].

(** The four chaining registers A, B, C, D. *)
Definition regs : Type := Z * Z * Z * Z.

Definition init_regs : regs :=
  (0x67452301, 0xefcdab89, 0x98badcfe, 0x10325476).

Definition byte_val (b : byte) : Z := Z.of_N (Byte.to_N b).

Definition byte_of_Z (z : Z) : byte :=
  default x00 (Byte.of_N (Z.to_N (z mod 256))).

Fixpoint words_le (bs : list byte) : list Z :=
  match bs with
  | b0 :: b1 :: b2 :: b3 :: rest =>
      (byte_val b0 + 256 * byte_val b1 + 65536 * byte_val b2
         + 16777216 * byte_val b3) :: words_le rest
  | _ => []
  end.

Definition bytes_le (w : Z) : list byte :=
  [ byte_of_Z w; byte_of_Z (w / 256); byte_of_Z (w / 65536);
    byte_of_Z (w / 16777216) ].

Definition round (M : list Z) (st : regs) (i : nat) : regs :=
  let '(a, b, c, d) := st in
  let '(f, g) :=
    if (i <? 16)%nat then
      (Z.lor (Z.land b c) (Z.land (not32 b) d), i)
    else if (i <? 32)%nat then
      (Z.lor (Z.land d b) (Z.land (not32 d) c), ((5 * i + 1) mod 16)%nat)
    else if (i <? 48)%nat then
      (Z.lxor (Z.lxor b c) d, ((3 * i + 5) mod 16)%nat)
    else
      (Z.lxor c (Z.lor b (not32 d)), ((7 * i) mod 16)%nat) in
  let f' := w32 (f + a + nth i K 0 + nth g M 0) in
  (d, w32 (b + rotl32 f' (nth i shifts 0)), b, c).

(** The compression function applied to one 64-byte block. *)
Definition compress (st : regs) (block : list byte) : regs :=
  let M := words_le block in
  let '(a, b, c, d) := st in
  let '(a', b', c', d') := fold_left (round M) (seq 0 64) st in
  (w32 (a + a'), w32 (b + b'), w32 (c + c'), w32 (d + d')).

(** The accumulator: chaining value, bytes of the unfinished block
    (most recent first) and the number of bytes absorbed. *)
Record Hash := mkHash {
  chain : regs;
  pending : list byte;
  absorbed : Z
}.

Definition createHash : Hash := mkHash init_regs [] 0.

Definition feed (h : Hash) (b : byte) : Hash :=
  let p := b :: pending h in
  if (length p =? 64)%nat
  then mkHash (compress (chain h) (rev p)) [] (absorbed h + 1)
  else mkHash (chain h) p (absorbed h + 1).

(** [hash.update(data)]. *)
Definition update (h : Hash) (data : list byte) : Hash :=
  fold_left feed data h.

Definition padding (len : Z) : list byte :=
  x80 :: repeat x00 (Z.to_nat ((55 - len) mod 64))
      ++ bytes_le (w32 (8 * len)) ++ bytes_le (w32 (8 * len / 4294967296)).

Definition digest_bytes (h : Hash) : list byte :=
  let '(a, b, c, d) := chain (update h (padding (absorbed h))) in
  bytes_le a ++ bytes_le b ++ bytes_le c ++ bytes_le d.

Definition hex_digit (n : N) : ascii :=
  match n with
  | 0 => "0" | 1 => "1" | 2 => "2" | 3 => "3" | 4 => "4" | 5 => "5"
  | 6 => "6" | 7 => "7" | 8 => "8" | 9 => "9" | 10 => "a" | 11 => "b"
  | 12 => "c" | 13 => "d" | 14 => "e" | _ => "f"
  end%N%char.

Fixpoint hex_of_bytes (bs : list byte) : string :=
  match bs with
  | [] => ""
  | b :: rest =>
      String (hex_digit (Byte.to_N b / 16))
        (String (hex_digit (Byte.to_N b mod 16)) (hex_of_bytes rest))
  end.

(** [hash.digest('hex')]. *)
Definition digest_hex (h : Hash) : string := hex_of_bytes (digest_bytes h).

(** [crypto.createHash('md5').update(content).digest('hex')]. *)
Definition md5_hex (content : list byte) : string :=
  digest_hex (update createHash content).

End Crypto.

(** ** Errors, the file system and its trace *)

Inductive errno := ENOENT | ENOTDIR | EISDIR | EEXIST | EBADF.

(** What a promise can be rejected with: an [Error] made by the store
    itself, a [RangeError] of the runtime, or a system error of [fs] with
    its [code], [syscall] and [path]. *)
Inductive error :=
  | Error (message : string)
  | RangeError (message : string)
  | SystemError (code : errno) (syscall : string) (path : string).

Inductive node :=
  | File (content : list byte)
  | Dir.

(** Calls that reach the file system, in the order they are issued. *)
Inductive call :=
  | OpExists (p : string)
  | OpMkdirp (p : string)
  | OpWriteFile (p : string) (content : list byte)
  | OpUnlink (p : string)
  | OpCopyFile (src dst : string)
  | OpStat (p : string)
  | OpOpen (p : string)
  | OpRead (fd : string) (len pos : Z)
  | OpClose (fd : string)
  | OpCreateWriteStream (p : string)
  | OpWriteChunk (p : string) (chunk : list byte)
  | OpCreateReadStream (p : string).

(** The world: a tree of nodes keyed by normalised path, and the trace. *)
Record world := mkWorld {
  files : gmap string node;
  trace : list call
}.

Inductive result (A : Type) :=
  | Ok (a : A)
  | Err (e : error).
Arguments Ok {A} a.
Arguments Err {A} e.

(** Promise-returning code: runs against a world, settles with a value or
    an error, and leaves a world behind in both cases. *)
Definition M (A : Type) : Type := world → result A * world.

Definition ret {A} (a : A) : M A := λ w, (Ok a, w).
Definition throw {A} (e : error) : M A := λ w, (Err e, w).
Definition bind {A B} (m : M A) (k : A → M B) : M B :=
  λ w, match m w with
       | (Ok a, w') => k a w'
       | (Err e, w') => (Err e, w')
       end.

Notation "'do' x <- m ; k" := (bind m (λ x, k))
  (at level 10, x name, m at level 100, k at level 200).
Notation "'do_' m ; k" := (bind m (λ _, k))
  (at level 10, m at level 100, k at level 200).

Module Fs.

Definition is_root (p : string) : bool :=
  bool_decide (p = "/") || bool_decide (p = ".").

(** The root and the working directory always exist. *)
Definition lookup_node (fs : gmap string node) (p : string) : option node :=
  if is_root p then Some Dir else fs !! p.

Definition is_file (fs : gmap string node) (p : string) : bool :=
  match lookup_node fs p with Some (File _) => true | _ => false end.

Definition log (c : call) (w : world) : world :=
  mkWorld (files w) (trace w ++ [c]).

Definition set_files (fs : gmap string node) (w : world) : world :=
  mkWorld fs (trace w).

(** [p] and the directories above it, outermost first, without the root. *)
Fixpoint ancestors_upto (fuel : nat) (p : string) : list string :=
  match fuel with
  | O => []
  | S n => if is_root p then [] else ancestors_upto n (Path.dirname p) ++ [p]
  end.

Definition ancestors (p : string) : list string :=
  ancestors_upto (S (String.length p)) p.

(** [fs.exists]: true for a file and for a directory. *)
Definition exists_ (p : string) : M bool :=
  λ w, (Ok (bool_decide (is_Some (lookup_node (files w) p))), log (OpExists p) w).

(** [mkdirp]: creates the missing directories of the chain; fails, having
    created nothing, when [p] or a directory above it is a regular file. *)
Definition mkdirp (p : string) : M unit :=
  λ w,
    let w := log (OpMkdirp p) w in
    if is_file (files w) p then (Err (SystemError EEXIST "mkdir" p), w)
    else if existsb (is_file (files w)) (ancestors p)
    then (Err (SystemError ENOTDIR "mkdir" p), w)
    else (Ok (), set_files (foldr (λ a fs, <[a:=Dir]> fs) (files w) (ancestors p)) w).

(** Creating or replacing the regular file [p] with [content]. *)
Definition store_file (syscall p : string) (content : list byte)
    (w : world) : result unit * world :=
  match lookup_node (files w) p with
  | Some Dir => (Err (SystemError EISDIR syscall p), w)
  | _ =>
      match lookup_node (files w) (Path.dirname p) with
      | Some Dir => (Ok (), set_files (<[p:=File content]> (files w)) w)
      | Some (File _) => (Err (SystemError ENOTDIR syscall p), w)
      | None => (Err (SystemError ENOENT syscall p), w)
      end
  end.

(** [fs.writeFile]. *)
Definition writeFile (p : string) (content : list byte) : M unit :=
  λ w, store_file "open" p content (log (OpWriteFile p content) w).

(** [fs.unlink]. *)
Definition unlink (p : string) : M unit :=
  λ w,
    let w := log (OpUnlink p) w in
    match lookup_node (files w) p with
    | None => (Err (SystemError ENOENT "unlink" p), w)
    | Some Dir => (Err (SystemError EISDIR "unlink" p), w)
    | Some (File _) => (Ok (), set_files (base.delete p (files w)) w)
    end.

(** [fs.copyFile]. *)
Definition copyFile (src dst : string) : M unit :=
  λ w,
    let w := log (OpCopyFile src dst) w in
    match lookup_node (files w) src with
    | None => (Err (SystemError ENOENT "copyfile" src), w)
    | Some Dir => (Err (SystemError EISDIR "copyfile" src), w)
    | Some (File content) => store_file "copyfile" dst content w
    end.

(** [fs.stat], reduced to the kind of node and its size. *)
Definition stat (p : string) : M (bool * Z) :=
  λ w,
    let w := log (OpStat p) w in
    match lookup_node (files w) p with
    | None => (Err (SystemError ENOENT "stat" p), w)
    | Some Dir => (Ok (true, 0), w)
    | Some (File content) => (Ok (false, Z.of_nat (length content)), w)
    end.

(** [fs.open(p, 'r')]: the descriptor is represented by the path. *)
Definition open (p : string) : M string :=
  λ w,
    let w := log (OpOpen p) w in
    match lookup_node (files w) p with
    | None => (Err (SystemError ENOENT "open" p), w)
    | Some _ => (Ok p, w)
    end.

(** [fs.read(fd, buffer, 0, len, pos)]: copies the bytes available in
    [pos, pos + len) to the front of [buffer].  A negative [pos] means
    the current position, which is 0 on a descriptor just opened. *)
Definition read (fd : string) (buffer : list byte) (len pos : Z)
    : M (list byte) :=
  λ w,
    let w := log (OpRead fd len pos) w in
    match lookup_node (files w) fd with
    | None => (Err (SystemError EBADF "read" fd), w)
    | Some Dir => (Err (SystemError EISDIR "read" fd), w)
    | Some (File content) =>
        let got := take (Z.to_nat len) (drop (Z.to_nat pos) content) in
        (Ok (got ++ drop (length got) buffer), w)
    end.

(** [fs.close]. *)
Definition close (fd : string) : M unit :=
  λ w, (Ok (), log (OpClose fd) w).

(** [fs.createWriteStream(p)]: opens [p] for writing, creating it or
    emptying it. *)
Definition createWriteStream (p : string) : M unit :=
  λ w, store_file "open" p [] (log (OpCreateWriteStream p) w).

(** One chunk arriving at the write stream of [p]. *)
Definition writeChunk (p : string) (chunk : list byte) : M unit :=
  λ w,
    let w := log (OpWriteChunk p chunk) w in
    match lookup_node (files w) p with
    | Some (File content) =>
        (Ok (), set_files (<[p:=File (content ++ chunk)]> (files w)) w)
    | _ => (Err (SystemError EBADF "write" p), w)
    end.

End Fs.

(** ** [Buffer] *)

(** [new Buffer(size)]: a fresh zero-filled buffer; a negative size is a
    [RangeError]. *)
Definition Buffer_alloc (size : Z) : result (list byte) :=
  if size <? 0 then Err (RangeError "Invalid typed array length")
  else Ok (repeat x00 (Z.to_nat size)).

Definition lift {A} (r : result A) : M A := λ w, (r, w).

(** ** The store *)

(** What [put] accepts: a [Buffer], or a [Readable] given by the chunks it
    emits before it ends. *)
Inductive content :=
  | Buffer (bytes : list byte)
  | Readable (chunks : list (list byte)).

(** What [put] resolves with: the digest alone, or the object
    [{md5, byteCount}]. *)
Inductive put_value :=
  | Md5String (md5 : string)
  | Md5Object (md5 : string) (byteCount : Z).

(** The stream handed out by [fs.createReadStream(path, options)]. *)
Record read_stream := mkReadStream {
  rs_path : string;
  rs_start : option Z;
  rs_end : option Z
}.

(** The store: the root of the shard tree, the number of two-character
    segments (the bound of the loop in [getDirpath]) and the staging
    directory.  The constructor's defaults are the working directory, 3
    and [/tmp]. *)
Record FsBlobStorage := mkStore {
  dir : string;
  depth : nat;
  _tmp : string
}.

Definition quote : string := String (ascii_of_nat 34) "".

(** The message [`Item "${id}" not found`]. *)
Definition not_found_message (id : string) : string :=
  "Item " +:+ quote +:+ id +:+ quote +:+ " not found".

Section Store.

(** [getRangeLength] of [lib/utils], whose source is not part of the
    files at hand: it is a parameter of the development. *)
Variable getRangeLength : Z * Z → Z.

Variable self : FsBlobStorage.

Definition parts (id : string) : list string :=
  map (λ i, Str.slice id (i * 2) (i * 2 + 2))%nat (seq 0 (depth self)).

Definition getDirpath (id : string) : string :=
  Path.join (dir self :: parts id).

Definition getFilepath (id : string) : string :=
  Path.join [getDirpath id; id].

(** [uuid] is the value drawn by [uuid()] for this call. *)
Definition tmpFilename (uuid : string) : string :=
  Path.join [_tmp self; uuid].

Definition existsP (filepath : string) : M bool := Fs.exists_ filepath.

(** The pipe into the staging file together with the ['data'] listener:
    every chunk is written, hashed and counted. *)
Fixpoint pump (tmpFile : string) (chunks : list (list byte))
    (hash : Crypto.Hash) (byteCount : Z) : M (Crypto.Hash * Z) :=
  match chunks with
  | [] => ret (hash, byteCount)
  | chunk :: rest =>
      do_ Fs.writeChunk tmpFile chunk;
      pump tmpFile rest (Crypto.update hash chunk)
        (byteCount + Z.of_nat (length chunk))
  end.

Definition putStream (uuid : string) (readStream : list (list byte))
    : M put_value :=
  let tmpFile := tmpFilename uuid in
  do exists_ <- existsP tmpFile;
  if exists_ : bool then throw (Error "File already exists")
  else
    do_ Fs.createWriteStream tmpFile;
    do fed <- pump tmpFile readStream Crypto.createHash 0;
    let md5 := Crypto.digest_hex fed.1 in
    let byteCount := fed.2 in
    let filepath := getFilepath md5 in
    do exists_ <- existsP filepath;
    do_ (if exists_ : bool then Fs.unlink tmpFile
         else
           do_ Fs.mkdirp (Path.dirname filepath);
           do_ Fs.copyFile tmpFile filepath;
           Fs.unlink tmpFile);
    ret (Md5Object md5 byteCount).

Definition put (uuid : string) (c : content) : M put_value :=
  match c with
  | Readable chunks => putStream uuid chunks
  | Buffer bytes =>
      let byteCount := Z.of_nat (length bytes) in
      let md5 := Crypto.digest_hex (Crypto.update Crypto.createHash bytes) in
      let dir := getDirpath md5 in
      let filepath := getFilepath md5 in
      do exists_ <- existsP filepath;
      if exists_ : bool then ret (Md5String md5)
      else
        do_ Fs.mkdirp dir;
        do_ Fs.writeFile filepath bytes;
        ret (Md5Object md5 byteCount)
  end.

Definition get (id : string) (range : Z * Z) : M (list byte) :=
  let filepath := getFilepath id in
  let rangeLength := getRangeLength range in
  do buffer <- lift (Buffer_alloc rangeLength);
  do exists_ <- existsP filepath;
  do file <- (if exists_ : bool then Fs.open filepath
              else throw (Error (not_found_message id)));
  do buffer <- Fs.read file buffer rangeLength range.1;
  do_ Fs.close file;
  ret buffer.

Definition getStream (id : string) (range : option (Z * Z))
    : M read_stream :=
  let filepath := getFilepath id in
  do exists_ <- existsP filepath;
  if exists_ : bool then
    let options :=
      match range with
      | Some r => (Some r.1, Some r.2)
      | None => (None, None)
      end in
    λ w, (Ok (mkReadStream filepath options.1 options.2),
          Fs.log (OpCreateReadStream filepath) w)
  else throw (Error (not_found_message id)).

Definition delete (id : string) : M unit :=
  Fs.unlink (getFilepath id).

Definition has (id : string) : M bool :=
  existsP (getFilepath id).

Definition getStat (id : string) : M (bool * Z) :=
  Fs.stat (getFilepath id).

End Store.

(** ** Identifiers *)

Definition is_hex_char (c : ascii) : bool :=
  match c with
  | "0" | "1" | "2" | "3" | "4" | "5" | "6" | "7" | "8" | "9"
  | "a" | "b" | "c" | "d" | "e" | "f" => true
  | _ => false
  end%char.

(** A blob identifier is a string of lowercase hexadecimal digits. *)
Fixpoint is_hex (s : string) : bool :=
  match s with
  | EmptyString => true
  | String c s' => is_hex_char c && is_hex s'
  end.

(** A path segment that normalisation keeps as it is: not empty, neither
    [.] nor [..], and free of separators. *)
Definition clean (seg : string) : bool :=
  negb (Str.is_empty seg) && negb (bool_decide (seg = "."))
  && negb (bool_decide (seg = "..")) && Str.no_slash seg.

(** The shape of a normalised stack: clean segments on top of a run of
    [..], the run being empty when climbing above the root is not allowed. *)
Definition nf (a : bool) (res : list string) : Prop :=
  ∃ cs k, res = rev cs ++ repeat ".." k
          ∧ Forall (λ s, clean s = true) cs
          ∧ (a = false → k = 0%nat).

(** The string that [join] hands to [normalize]. *)
Definition joined (args : list string) : string :=
  Str.join_slash (filter (λ a : string, a ≠ "") args).

(** String concatenation of a list of pieces. *)
Definition glue (pieces : list string) : string :=
  foldr String.append "" pieces.

(** ** Error kinds

    The store raises plain [Error] objects and lets system errors through;
    the kinds below are how they are told apart. *)


(** Conflict: the error raised when the staging path is taken. *)
Definition Conflict (e : error) : Prop := e = Error "File already exists".

(** The digest carried by what [put] resolves with. *)
Definition md5_of (v : put_value) : string :=
  match v with
  | Md5String md5 => md5
  | Md5Object md5 _ => md5
  end.

(** [buffer.slice(s, e)] for [0 <= s <= e]. *)
Definition bytes_slice (b : list byte) (s e : Z) : list byte :=
  take (Z.to_nat (e - s)) (drop (Z.to_nat s) b).

(** A world with nothing on disk and no call made yet. *)
Definition empty_world : world := mkWorld ∅ [].

(** The store of the examples: root [root], staging under [/tmp], and the
    default depth. *)
Definition example_store : FsBlobStorage := mkStore "root" 3 "/tmp".

(** A world whose only node is the staging directory [/tmp]. *)
Definition tmp_world : world := mkWorld {["/tmp" := Dir]} [].

(** The bytes of an ASCII literal, for the examples. *)
Definition bytes_of (s : string) : list byte := String.list_byte_of_string s.

(** ** Sanity checks of the models against known values *)

Example md5_abc :
  Crypto.md5_hex (bytes_of "abc") = "900150983cd24fb0d6963f7d28e17f72".
Proof. vm_compute. reflexivity. Qed.

Example md5_empty : Crypto.md5_hex [] = "d41d8cd98f00b204e9800998ecf8427e".
Proof. vm_compute. reflexivity. Qed.

Example md5_two_blocks :
  Crypto.md5_hex (bytes_of
    "12345678901234567890123456789012345678901234567890123456789012345678901234567890")
  = "57edf4a22be3c955ac49da2e2107b67a".
Proof. vm_compute. reflexivity. Qed.

Example md5_pad_boundaries :
  Crypto.md5_hex (repeat "a"%byte 55) = "ef1772b6dff9a122358552954ad0df65"
  ∧ Crypto.md5_hex (repeat "a"%byte 56) = "3b0c8ac703f828b04c6c197006d17218"
  ∧ Crypto.md5_hex (repeat "a"%byte 64) = "014842d480b571495a4a0363793f7367".
Proof. repeat split; vm_compute; reflexivity. Qed.

Example join_examples :
  Path.join ["/a/../b/"; ""; "x//y"; ".."] = "/b/x"
  ∧ Path.join [""; ""] = "."
  ∧ Path.join ["../a"; "../../b"] = "../../b"
  ∧ Path.join ["."; "a"] = "a"
  ∧ Path.join ["./"] = "./".
Proof. repeat split; vm_compute; reflexivity. Qed.

Example dirname_examples :
  Path.dirname "/a/b/c" = "/a/b"
  ∧ Path.dirname "//a" = "//"
  ∧ Path.dirname "a" = "."
  ∧ Path.dirname "/a/b//" = "/a"
  ∧ Path.dirname "/a" = "/".
Proof. repeat split; vm_compute; reflexivity. Qed.

(** ** Facts about strings and segments *)

Lemma app_cons c s t : String c s +:+ t = String c (s +:+ t).
Proof. reflexivity. Qed.

Lemma app_empty_l t : "" +:+ t = t.
Proof. reflexivity. Qed.

Lemma app_empty_r s : s +:+ "" = s.
Proof. induction s as [|c s IH]; [done|]. by rewrite app_cons, IH. Qed.

Lemma app_assoc_str s t u : (s +:+ t) +:+ u = s +:+ (t +:+ u).
Proof. induction s as [|c s IH]; [done|]. by rewrite !app_cons, IH. Qed.

Lemma split_nonempty s : Str.split s ≠ [].
Proof.
  destruct s as [|c s]; simpl; [done|].
  destruct (Str.is_slash c); [done|]. by destruct (Str.split s).
Qed.

Lemma split_app_slash a b :
  Str.split (a +:+ String Str.slash b) = Str.split a ++ Str.split b.
Proof.
  induction a as [|c a IH].
  - reflexivity.
  - rewrite app_cons. simpl. rewrite IH.
    destruct (Str.is_slash c); [done|].
    pose proof (split_nonempty a) as Hne.
    by destruct (Str.split a).
Qed.

Lemma split_no_slash s : Str.no_slash s = true → Str.split s = [s].
Proof.
  induction s as [|c s IH]; simpl; [done|].
  intros [Hc Hs]%andb_true_iff. apply negb_true_iff in Hc.
  by rewrite Hc, (IH Hs).
Qed.

Lemma join_slash_cons x y l :
  Str.join_slash (x :: y :: l) = x +:+ String Str.slash (Str.join_slash (y :: l)).
Proof. reflexivity. Qed.

Lemma split_join_slash l :
  l ≠ [] → Forall (λ s, Str.no_slash s = true) l →
  Str.split (Str.join_slash l) = l.
Proof.
  induction l as [|x [|y l] IH]; intros Hne Hall; [done| |].
  - apply split_no_slash. by inversion Hall.
  - rewrite join_slash_cons, split_app_slash.
    inversion Hall as [|?? Hx Hrest]; subst.
    rewrite (split_no_slash x Hx), IH; done.
Qed.

Lemma join_slash_inj l1 l2 :
  l1 ≠ [] → l2 ≠ [] →
  Forall (λ s, Str.no_slash s = true) l1 →
  Forall (λ s, Str.no_slash s = true) l2 →
  Str.join_slash l1 = Str.join_slash l2 → l1 = l2.
Proof.
  intros ?? H1 H2 Heq.
  rewrite <- (split_join_slash l1), <- (split_join_slash l2) by done.
  by rewrite Heq.
Qed.

Lemma clean_spec seg :
  clean seg = true ↔
  seg ≠ "" ∧ seg ≠ "." ∧ seg ≠ ".." ∧ Str.no_slash seg = true.
Proof.
  unfold clean. rewrite !andb_true_iff, !negb_true_iff, !bool_decide_eq_false.
  destruct seg; simpl; intuition congruence.
Qed.

Lemma is_hex_char_not_special c :
  is_hex_char c = true → Str.is_slash c = false ∧ c ≠ Str.dot.
Proof.
  intros H. split.
  - unfold Str.is_slash. apply bool_decide_eq_false. intros ->. done.
  - intros ->. done.
Qed.

Lemma is_hex_no_slash s : is_hex s = true → Str.no_slash s = true.
Proof.
  induction s as [|c s IH]; simpl; [done|].
  intros [Hc Hs]%andb_true_iff.
  destruct (is_hex_char_not_special c Hc) as [-> _]. simpl. auto.
Qed.

Lemma is_hex_clean s : is_hex s = true → s ≠ "" → clean s = true.
Proof.
  intros Hh Hne. apply clean_spec. repeat split; [done| | |].
  - intros ->. done.
  - intros ->. done.
  - by apply is_hex_no_slash.
Qed.

(** ** Facts about normalisation *)

Lemma norm_step_clean a res seg :
  clean seg = true → Path.norm_step a res seg = seg :: res.
Proof.
  intros (H1 & H2 & H3 & _)%clean_spec. unfold Path.norm_step.
  by rewrite !bool_decide_eq_false_2.
Qed.

Lemma norm_step_empty a res : Path.norm_step a res "" = res.
Proof. reflexivity. Qed.

Lemma fold_norm_clean a cs res :
  Forall (λ s, clean s = true) cs →
  fold_left (Path.norm_step a) cs res = rev cs ++ res.
Proof.
  intros Hall. revert res.
  induction Hall as [|c cs Hc _ IH]; intros res; simpl; [done|].
  rewrite norm_step_clean, IH by done. by rewrite <- app_assoc.
Qed.

Lemma fold_norm_ups k j :
  fold_left (Path.norm_step true) (repeat ".." k) (repeat ".." j)
  = repeat ".." (k + j).
Proof.
  revert j. induction k as [|k IH]; intros j; simpl; [done|].
  replace (Path.norm_step true (repeat ".." j) "..") with (repeat ".." (S j)).
  - by rewrite IH, Nat.add_succ_r.
  - destruct j; reflexivity.
Qed.

Lemma nf_nil a : nf a [].
Proof. unfold nf. exists (@nil string), 0%nat. by repeat split. Qed.

Lemma nf_step a res seg :
  Str.no_slash seg = true → nf a res → nf a (Path.norm_step a res seg).
Proof.
  intros Hns (cs & k & -> & Hcs & Hk). unfold Path.norm_step, nf.
  destruct (bool_decide (seg = "")) eqn:E1; simpl; [by exists cs, k|].
  destruct (bool_decide (seg = ".")) eqn:E2; simpl; [by exists cs, k|].
  apply bool_decide_eq_false in E1, E2.
  destruct (bool_decide (seg = "..")) eqn:E3.
  - destruct cs as [|c cs _] using rev_ind.
    + simpl. destruct k as [|k]; simpl.
      * destruct a; [|apply nf_nil]. exists (@nil string), 1%nat. by repeat split.
      * destruct a; [|by specialize (Hk eq_refl)].
        exists (@nil string), (S (S k)). by repeat split.
    + rewrite rev_unit. simpl.
      apply Forall_app in Hcs as [Hcs Hc].
      inversion Hc as [|?? Hc' _]; subst.
      apply clean_spec in Hc' as (_ & _ & Hc' & _).
      rewrite bool_decide_eq_false_2 by done. by exists cs, k.
  - apply bool_decide_eq_false in E3.
    exists (cs ++ [seg]), k. rewrite rev_unit. repeat split; [|done].
    apply Forall_app. split; [done|]. constructor; [|done].
    by apply clean_spec.
Qed.

Lemma nf_fold a segs res :
  Forall (λ s, Str.no_slash s = true) segs → nf a res →
  nf a (fold_left (Path.norm_step a) segs res).
Proof.
  intros Hall. revert res.
  induction Hall as [|s segs Hs _ IH]; intros res Hres; simpl; [done|].
  by apply IH, nf_step.
Qed.

Lemma split_no_slash_all s : Forall (λ x, Str.no_slash x = true) (Str.split s).
Proof.
  induction s as [|c s IH]; simpl; [by repeat constructor|].
  destruct (Str.is_slash c) eqn:Ec; [by constructor|].
  destruct (Str.split s) as [|x xs]; [by repeat constructor; simpl; rewrite Ec|].
  inversion IH; subst. constructor; [|done]. simpl. by rewrite Ec.
Qed.

Lemma nf_normalizeString a segs :
  Forall (λ s, Str.no_slash s = true) segs →
  ∃ cs k, Path.normalizeString a segs = repeat ".." k ++ cs
          ∧ Forall (λ s, clean s = true) cs ∧ (a = false → k = 0%nat).
Proof.
  intros Hall.
  destruct (nf_fold a segs [] Hall (nf_nil a)) as (cs & k & Heq & Hcs & Hk).
  exists cs, k. unfold Path.normalizeString. rewrite Heq.
  rewrite rev_app_distr, rev_involutive.
  repeat split; [|done..]. f_equal.
  clear. induction k as [|k IH]; simpl; [done|].
  rewrite IH. clear. induction k; simpl; [done|]. by f_equal.
Qed.

(** Normalising a normal form again changes nothing. *)
Lemma fold_norm_nf a cs k res0 :
  Forall (λ s, clean s = true) cs → (a = false → k = 0%nat) →
  res0 = [] →
  fold_left (Path.norm_step a) (repeat ".." k ++ cs) res0
  = rev cs ++ repeat ".." k.
Proof.
  intros Hcs Hk ->. rewrite fold_left_app.
  assert (fold_left (Path.norm_step a) (repeat ".." k) [] = repeat ".." k)
    as ->.
  { destruct a.
    - pose proof (fold_norm_ups k 0) as Hups. simpl in Hups.
      by rewrite Hups, Nat.add_0_r.
    - by rewrite (Hk eq_refl). }
  by apply fold_norm_clean.
Qed.

Lemma clean_no_slash_all cs :
  Forall (λ s, clean s = true) cs → Forall (λ s, Str.no_slash s = true) cs.
Proof.
  intros Hcs. eapply Forall_impl; [exact Hcs|].
  intros s Hs. by apply clean_spec in Hs as (_&_&_&?).
Qed.

Lemma normal_no_slash_all k cs :
  Forall (λ s, clean s = true) cs →
  Forall (λ s, Str.no_slash s = true) (repeat ".." k ++ cs).
Proof.
  intros Hcs. apply Forall_app. split; [|by apply clean_no_slash_all].
  clear. induction k; simpl; by constructor.
Qed.

Lemma starts_with_slash_app s t :
  s ≠ "" → Str.starts_with_slash (s +:+ t) = Str.starts_with_slash s.
Proof. by destruct s. Qed.

Lemma no_slash_starts s : Str.no_slash s = true → Str.starts_with_slash s = false.
Proof.
  destruct s as [|c s]; simpl; [done|].
  intros [Hc _]%andb_true_iff. by apply negb_true_iff in Hc.
Qed.

Lemma no_slash_ends s : Str.no_slash s = true → Str.ends_with_slash s = false.
Proof.
  induction s as [|c s IH]; simpl; [done|].
  intros [Hc Hs]%andb_true_iff. apply negb_true_iff in Hc.
  destruct s; [done|]. by apply IH.
Qed.

Lemma ends_with_slash_app s t :
  t ≠ "" → Str.ends_with_slash (s +:+ t) = Str.ends_with_slash t.
Proof.
  intros Ht. induction s as [|c s IH]; [done|].
  rewrite app_cons. simpl. rewrite IH.
  destruct (s +:+ t) eqn:E; [|done].
  destruct s; [|done]. by rewrite app_empty_l in E.
Qed.

Lemma join_slash_nonempty x l : x ≠ "" → Str.join_slash (x :: l) ≠ "".
Proof.
  intros Hx. destruct l as [|y l]; [done|].
  rewrite join_slash_cons. by destruct x.
Qed.

Lemma join_slash_starts x l :
  x ≠ "" → Str.starts_with_slash (Str.join_slash (x :: l)) = Str.starts_with_slash x.
Proof.
  intros Hx. destruct l as [|y l]; [done|].
  rewrite join_slash_cons. by apply starts_with_slash_app.
Qed.

Lemma join_slash_ends l :
  Forall (λ s, s ≠ "" ∧ Str.no_slash s = true) l →
  Str.ends_with_slash (Str.join_slash l) = false.
Proof.
  induction l as [|x [|y l] IH]; intros Hall; [done| |].
  - inversion Hall as [|?? [_ Hx] _]; subst. by apply no_slash_ends.
  - rewrite join_slash_cons, ends_with_slash_app by done.
    inversion Hall as [|?? _ Hrest]; subst.
    specialize (IH Hrest).
    inversion Hrest as [|?? [Hy _] _]; subst.
    pose proof (join_slash_nonempty y l Hy) as Hne.
    simpl. change (String.concat "/" (y :: l)) with (Str.join_slash (y :: l)).
    by destruct (Str.join_slash (y :: l)).
Qed.

Lemma normal_nonempty_all k cs :
  Forall (λ s, clean s = true) cs →
  Forall (λ s, s ≠ "" ∧ Str.no_slash s = true) (repeat ".." k ++ cs).
Proof.
  intros Hcs. apply Forall_app. split.
  - clear. induction k; simpl; by constructor.
  - eapply Forall_impl; [exact Hcs|].
    intros s Hs. by apply clean_spec in Hs as (?&_&_&?).
Qed.

Lemma components_normal p :
  ∃ cs k, Path.components p = repeat ".." k ++ cs
          ∧ Forall (λ s, clean s = true) cs
          ∧ (Path.isAbsolute p = true → k = 0%nat).
Proof.
  destruct (nf_normalizeString (negb (Path.isAbsolute p)) (Str.split p)
              (split_no_slash_all p)) as (cs & k & HN & Hcs & Hk).
  exists cs, k. repeat split; [done..|].
  intros Ha. apply Hk. by rewrite Ha.
Qed.

Lemma normalizeString_normal a k cs pre post :
  Forall (λ s, clean s = true) cs → (a = false → k = 0%nat) →
  Forall (λ s, s = "") pre → Forall (λ s, s = "") post →
  Path.normalizeString a (pre ++ (repeat ".." k ++ cs) ++ post)
  = repeat ".." k ++ cs.
Proof.
  intros Hcs Hk Hpre Hpost. unfold Path.normalizeString.
  assert (Hskip : ∀ l res, Forall (λ s, s = "") l →
            fold_left (Path.norm_step a) l res = res).
  { intros l res Hl. revert res.
    induction Hl as [|x l -> _ IH]; intros res; simpl; [done|].
    by rewrite norm_step_empty. }
  rewrite fold_left_app, (Hskip pre) by done.
  rewrite fold_left_app, (fold_norm_nf a cs k) by done.
  rewrite (Hskip post) by done.
  rewrite rev_app_distr, rev_involutive. f_equal.
  clear. induction k as [|k IH]; simpl; [done|].
  rewrite IH. clear. induction k; simpl; [done|]. by f_equal.
Qed.

(** Normalising keeps the root flag and the segments of a path. *)
Lemma components_normalize p :
  p ≠ "" →
  Path.isAbsolute (Path.normalize p) = Path.isAbsolute p
  ∧ Path.components (Path.normalize p) = Path.components p.
Proof.
  intros Hp.
  destruct (components_normal p) as (cs & k & HN & Hcs & Hk).
  assert (He : Str.is_empty p = false) by (by destruct p).
  unfold Path.normalize. rewrite He. cbv zeta. rewrite HN.
  destruct (repeat ".." k ++ cs) as [|x N'] eqn:EN.
  { simpl. destruct (Path.isAbsolute p); [by split|].
    destruct (Str.ends_with_slash p); by split. }
  pose proof (normal_nonempty_all k cs Hcs) as Hall. rewrite EN in Hall.
  pose proof (normal_no_slash_all k cs Hcs) as Hns. rewrite EN in Hns.
  assert (Hx : x ≠ "") by (by inversion Hall as [|?? [? _] _]).
  assert (Hxs : Str.no_slash x = true) by (by inversion Hns).
  pose proof (join_slash_nonempty x N' Hx) as Hj.
  destruct (Str.join_slash (x :: N')) as [|j0 j] eqn:Ej; [done|].
  simpl Str.is_empty. cbv iota.
  set (body := if Str.ends_with_slash p then String j0 j +:+ "/" else String j0 j).
  assert (Hsplit : ∃ post, Forall (λ s, s = "") post
                           ∧ Str.split body = (x :: N') ++ post).
  { unfold body. destruct (Str.ends_with_slash p).
    - exists [""]. split; [by repeat constructor|].
      rewrite <- Ej.
      change (Str.join_slash (x :: N') +:+ "/")
        with (Str.join_slash (x :: N') +:+ String Str.slash "").
      by rewrite split_app_slash, split_join_slash.
    - exists []. split; [constructor|].
      by rewrite <- Ej, app_nil_r, split_join_slash. }
  destruct Hsplit as (post & Hpost & Hsplit).
  assert (Hbody : Str.starts_with_slash body = false).
  { unfold body. destruct (Str.ends_with_slash p);
      [rewrite starts_with_slash_app by done|];
      rewrite <- Ej, join_slash_starts by done; by apply no_slash_starts. }
  unfold Path.components, Path.isAbsolute in *.
  destruct (Str.starts_with_slash p) eqn:Eabs.
  - change ("/" +:+ body) with (String Str.slash body). simpl.
    split; [done|]. rewrite Hsplit.
    change ("" :: (x :: N') ++ post) with ([""] ++ (x :: N') ++ post).
    rewrite <- EN.
    rewrite normalizeString_normal;
      [by rewrite EN|done|by intros _; apply Hk|by repeat constructor|done].
  - rewrite Hbody. split; [done|]. simpl negb. rewrite Hsplit, <- EN.
    rewrite <- (app_nil_l ((repeat ".." k ++ cs) ++ post)).
    rewrite normalizeString_normal; [by rewrite EN|done..].
Qed.

(** ** Facts about [path.join] *)

Lemma filter_nonempty_clean cs :
  Forall (λ s, clean s = true) cs → filter (λ a : string, a ≠ "") cs = cs.
Proof.
  induction 1 as [|c cs Hc _ IH]; [done|].
  rewrite filter_cons_True, IH; [done|].
  by apply clean_spec in Hc as (?&_).
Qed.

Lemma normalize_render p :
  Path.components p ≠ [] → Str.ends_with_slash p = false →
  Path.normalize p = Path.render (Path.isAbsolute p) (Path.components p).
Proof.
  intros HN Hend.
  destruct (components_normal p) as (cs & k & HNeq & Hcs & _).
  pose proof (normal_nonempty_all k cs Hcs) as Hall. rewrite <- HNeq in Hall.
  unfold Path.normalize, Path.render. rewrite Hend.
  destruct p as [|c0 p0]; [done|]. simpl Str.is_empty. cbv zeta iota.
  destruct (Path.components (String c0 p0)) as [|x N'] eqn:EN; [done|].
  inversion Hall as [|?? [Hx _] _]; subst.
  pose proof (join_slash_nonempty x N' Hx) as Hj.
  destruct (Str.join_slash (x :: N')); [done|]. simpl Str.is_empty.
  by destruct (Path.isAbsolute (String c0 p0)).
Qed.

Lemma join_joined args :
  filter (λ a : string, a ≠ "") args ≠ [] →
  Path.join args = Path.normalize (joined args).
Proof.
  unfold Path.join, joined.
  by destruct (filter (λ a : string, a ≠ "") args).
Qed.

Lemma joined_facts p cs :
  Forall (λ s, clean s = true) cs → p ≠ "" ∨ cs ≠ [] →
  joined (p :: cs) ≠ ""
  ∧ Path.isAbsolute (joined (p :: cs)) = Path.isAbsolute p
  ∧ Path.components (joined (p :: cs)) = Path.components p ++ cs
  ∧ (cs ≠ [] → Str.ends_with_slash (joined (p :: cs)) = false).
Proof.
  intros Hcs Hne. unfold joined.
  pose proof (clean_no_slash_all cs Hcs) as Hns.
  assert (Hall : Forall (λ s, s ≠ "" ∧ Str.no_slash s = true) cs).
  { apply (normal_nonempty_all 0 cs Hcs). }
  destruct (decide (p = "")) as [->|Hp].
  - rewrite filter_cons_False by naive_solver.
    rewrite filter_nonempty_clean by done.
    destruct Hne as [|Hne]; [done|].
    destruct cs as [|c cs']; [done|].
    inversion Hall as [|?? [Hc Hcns] _]; subst.
    split; [by apply join_slash_nonempty|].
    assert (Habs : Path.isAbsolute (Str.join_slash (c :: cs')) = false).
    { unfold Path.isAbsolute. rewrite join_slash_starts by done.
      by apply no_slash_starts. }
    split; [done|]. split; [|intros _; by apply join_slash_ends].
    unfold Path.components. rewrite Habs, split_join_slash by done.
    simpl negb. unfold Path.normalizeString.
    rewrite fold_norm_clean by done.
    by rewrite app_nil_r, rev_involutive.
  - rewrite filter_cons_True by done.
    rewrite filter_nonempty_clean by done.
    destruct cs as [|c cs'].
    { rewrite app_nil_r. by repeat split. }
    inversion Hall as [|?? [Hc _] _]; subst.
    rewrite join_slash_cons.
    split; [by destruct p|].
    assert (Habs : Path.isAbsolute (p +:+ String Str.slash (Str.join_slash (c :: cs')))
                   = Path.isAbsolute p).
    { by apply starts_with_slash_app. }
    split; [done|]. split.
    + unfold Path.components. rewrite Habs, split_app_slash.
      rewrite split_join_slash by done.
      unfold Path.normalizeString.
      rewrite fold_left_app, fold_norm_clean by done.
      by rewrite rev_app_distr, rev_involutive.
    + intros _. rewrite ends_with_slash_app by done.
      pose proof (join_slash_ends (c :: cs') Hall) as Hends.
      pose proof (join_slash_nonempty c cs' Hc) as Hjn.
      simpl. by destruct (Str.join_slash (c :: cs')).
Qed.

(** Joining clean segments onto a path keeps its root flag and appends
    the segments to those of the path. *)
Lemma join_components p cs :
  Forall (λ s, clean s = true) cs →
  Path.isAbsolute (Path.join (p :: cs)) = Path.isAbsolute p
  ∧ Path.components (Path.join (p :: cs)) = Path.components p ++ cs.
Proof.
  intros Hcs.
  destruct (decide (p = "")) as [->|Hp]; [destruct cs as [|c cs']|].
  - by split.
  - assert (Hne : "" ≠ "" ∨ c :: cs' ≠ []) by (by right).
    destruct (joined_facts "" (c :: cs') Hcs Hne) as (Hj & Habs & Hcomp & _).
    rewrite join_joined.
    + destruct (components_normalize _ Hj) as [-> ->]. by split.
    + rewrite filter_cons_False by naive_solver.
      rewrite filter_nonempty_clean by done. done.
  - destruct (joined_facts p cs Hcs (or_introl Hp)) as (Hj & Habs & Hcomp & _).
    rewrite join_joined.
    + destruct (components_normalize _ Hj) as [-> ->]. by split.
    + by rewrite filter_cons_True by done.
Qed.

(** With at least one clean segment the result is the rendering of the
    root flag and the combined segments. *)
Lemma join_render p cs :
  Forall (λ s, clean s = true) cs → cs ≠ [] →
  Path.join (p :: cs)
  = Path.render (Path.isAbsolute p) (Path.components p ++ cs).
Proof.
  intros Hcs Hne.
  destruct (joined_facts p cs Hcs (or_intror Hne)) as (Hj & Habs & Hcomp & Hend).
  rewrite join_joined.
  - rewrite normalize_render, Habs, Hcomp; [done| |by apply Hend].
    rewrite Hcomp. destruct cs; [done|]. by destruct (Path.components p).
  - destruct (decide (p = "")) as [->|Hp].
    + rewrite filter_cons_False by naive_solver.
      by rewrite filter_nonempty_clean.
    + by rewrite filter_cons_True by done.
Qed.

Lemma join_filter args :
  Path.join (filter (λ a : string, a ≠ "") args) = Path.join args.
Proof.
  unfold Path.join.
  assert (filter (λ a : string, a ≠ "") (filter (λ a : string, a ≠ "") args)
          = filter (λ a : string, a ≠ "") args) as ->; [|done].
  induction args as [|x args IH]; [done|].
  destruct (decide (x = "")) as [->|Hx].
  - by rewrite filter_cons_False by naive_solver.
  - rewrite !filter_cons_True by done. by rewrite IH.
Qed.

(** ** Facts about slices of identifiers *)

Lemma is_hex_substring n m s :
  is_hex s = true → is_hex (String.substring n m s) = true.
Proof.
  revert n m. induction s as [|c s IH]; intros n m Hs.
  - by destruct n, m.
  - simpl in Hs. apply andb_true_iff in Hs as [Hc Hs].
    destruct n as [|n], m as [|m]; simpl; auto.
    by rewrite Hc, IH.
Qed.

Lemma length_substring n m s :
  (n + m ≤ String.length s)%nat → String.length (String.substring n m s) = m.
Proof.
  revert n m. induction s as [|c s IH]; intros n m Hlen; simpl in Hlen.
  - by destruct n, m; try lia.
  - destruct n as [|n], m as [|m]; simpl; try done.
    + f_equal. apply IH. simpl. lia.
    + apply IH. lia.
    + apply IH. lia.
Qed.

Lemma substring_glue n m s :
  String.substring 0 n s +:+ String.substring n m s
  = String.substring 0 (n + m) s.
Proof.
  revert n. induction s as [|c s IH]; intros n.
  - by destruct n, m.
  - destruct n as [|n]; [done|].
    simpl. by rewrite app_cons, IH.
Qed.

Lemma slice_pair id i :
  Str.slice id (i * 2) (i * 2 + 2) = String.substring (i * 2) 2 id.
Proof. unfold Str.slice. f_equal. lia. Qed.

Lemma glue_app l1 l2 : glue (l1 ++ l2) = glue l1 +:+ glue l2.
Proof.
  induction l1 as [|x l1 IH]; [done|].
  simpl. unfold glue in *. simpl. by rewrite IH, app_assoc_str.
Qed.

Section StoreFacts.

Variable self : FsBlobStorage.

Lemma parts_length id : length (parts self id) = depth self.
Proof. unfold parts. by rewrite length_map, length_seq. Qed.

Lemma parts_hex id :
  is_hex id = true → Forall (λ s, is_hex s = true) (parts self id).
Proof.
  intros Hid. unfold parts. apply Forall_map, Forall_forall.
  intros i _. by apply is_hex_substring.
Qed.

Lemma parts_two id :
  (2 * depth self ≤ String.length id)%nat →
  Forall (λ s, String.length s = 2%nat) (parts self id).
Proof.
  intros Hlen. unfold parts. apply Forall_map, Forall_forall.
  intros i Hi%elem_of_seq. simpl. rewrite slice_pair.
  apply length_substring. lia.
Qed.

Lemma parts_glue id :
  glue (parts self id) = String.substring 0 (2 * depth self) id.
Proof.
  unfold parts. induction (depth self) as [|d IH]; [by destruct id|].
  rewrite seq_S, map_app, glue_app, IH. simpl.
  rewrite slice_pair. unfold glue. simpl. rewrite app_empty_r.
  replace (d * 2)%nat with (2 * d)%nat by lia.
  rewrite substring_glue. f_equal. lia.
Qed.

(** The segments of a hexadecimal identifier that [join] keeps. *)
Lemma kept_parts_clean id :
  is_hex id = true →
  Forall (λ s, clean s = true) (filter (λ a : string, a ≠ "") (parts self id)).
Proof.
  intros Hid. apply Forall_forall. intros s [Hne Hin]%list_elem_of_filter.
  apply is_hex_clean; [|done].
  pose proof (parts_hex id Hid) as Hall.
  by eapply Forall_forall in Hall.
Qed.

Lemma kept_parts_all id :
  is_hex id = true → (2 * depth self ≤ String.length id)%nat →
  filter (λ a : string, a ≠ "") (parts self id) = parts self id.
Proof.
  intros Hid Hlen. apply filter_nonempty_clean.
  apply Forall_forall. intros s Hin. apply is_hex_clean.
  - pose proof (parts_hex id Hid) as Hall. by eapply Forall_forall in Hall.
  - pose proof (parts_two id Hlen) as Hall.
    eapply Forall_forall in Hall; [|done]. by destruct s.
Qed.

Lemma getDirpath_components id :
  is_hex id = true →
  Path.isAbsolute (getDirpath self id) = Path.isAbsolute (dir self)
  ∧ Path.components (getDirpath self id)
    = Path.components (dir self)
      ++ filter (λ a : string, a ≠ "") (parts self id).
Proof.
  intros Hid. unfold getDirpath.
  rewrite <- join_filter.
  destruct (decide (dir self = "")) as [E|E].
  - rewrite E, filter_cons_False by naive_solver.
    pose proof (join_components ""
      (filter (λ a : string, a ≠ "") (parts self id))
      (kept_parts_clean id Hid)) as [H1 H2].
    rewrite <- join_filter in H1, H2.
    rewrite filter_cons_False in H1, H2 by naive_solver.
    rewrite <- join_filter. split; [exact H1|exact H2].
  - rewrite filter_cons_True by done.
    apply join_components. by apply kept_parts_clean.
Qed.

(** The file path of a non-empty hexadecimal identifier, in terms of the
    root and the kept segments. *)
Lemma getFilepath_render id :
  is_hex id = true → id ≠ "" →
  getFilepath self id
  = Path.render (Path.isAbsolute (dir self))
      (Path.components (dir self)
         ++ filter (λ a : string, a ≠ "") (parts self id) ++ [id]).
Proof.
  intros Hid Hne. unfold getFilepath.
  destruct (getDirpath_components id Hid) as [Habs Hcomp].
  rewrite join_render; [|by repeat constructor; apply is_hex_clean|done].
  by rewrite Habs, Hcomp, <- app_assoc.
Qed.

End StoreFacts.

Lemma length_substring_min n m s :
  String.length (String.substring n m s) = (m `min` (String.length s - n))%nat.
Proof.
  revert n m. induction s as [|c s IH]; intros n m.
  - destruct n, m; simpl; lia.
  - destruct n as [|n], m as [|m]; simpl; try lia.
    + specialize (IH 0%nat m). rewrite IH. lia.
    + apply IH.
    + apply IH.
Qed.

Lemma substring_all n s :
  (String.length s ≤ n)%nat → String.substring 0 n s = s.
Proof.
  revert n. induction s as [|c s IH]; intros n Hn; simpl in Hn.
  - by destruct n.
  - destruct n as [|n]; [lia|]. simpl. f_equal. apply IH. lia.
Qed.

Lemma join_nonempty args : Path.join args ≠ "".
Proof.
  unfold Path.join.
  destruct (filter (λ a : string, a ≠ "") args) as [|x l]; [done|].
  unfold Path.normalize.
  destruct (Str.is_empty (Str.join_slash (x :: l))); [done|]. cbv zeta.
  destruct (Str.is_empty _) eqn:Eb.
  - destruct (Path.isAbsolute _); [done|]. by destruct (Str.ends_with_slash _).
  - destruct (Path.isAbsolute _); [done|].
    destruct (Str.ends_with_slash _).
    + destruct (Str.join_slash (Path.components _)); done.
    + destruct (Str.join_slash (Path.components _)); done.
Qed.

Lemma join_slash_app l1 l2 :
  l1 ≠ [] → l2 ≠ [] →
  Str.join_slash (l1 ++ l2)
  = Str.join_slash l1 +:+ String Str.slash (Str.join_slash l2).
Proof.
  intros H1 H2. induction l1 as [|x [|y l1] IH]; [done| |].
  - destruct l2; [done|]. reflexivity.
  - change ((x :: y :: l1) ++ l2) with (x :: y :: (l1 ++ l2)).
    rewrite !join_slash_cons.
    change (y :: l1 ++ l2) with ((y :: l1) ++ l2).
    rewrite IH by done. by rewrite app_assoc_str.
Qed.

Lemma render_components a D :
  Forall (λ s, clean s = true) D → D ≠ [] →
  Path.isAbsolute (Path.render a D) = a
  ∧ Path.components (Path.render a D) = D.
Proof.
  intros HD Hne.
  pose proof (normal_nonempty_all 0 D HD) as Hall. simpl in Hall.
  pose proof (clean_no_slash_all D HD) as Hns.
  destruct D as [|x D']; [done|].
  inversion Hall as [|?? [Hx Hxs] _]; subst.
  assert (Habs : Path.isAbsolute (Path.render a (x :: D')) = a).
  { unfold Path.render, Path.isAbsolute. destruct a; [done|].
    rewrite app_empty_l, join_slash_starts by done. by apply no_slash_starts. }
  split; [done|].
  unfold Path.components. rewrite Habs. unfold Path.render.
  destruct a.
  - change ("/" +:+ Str.join_slash (x :: D'))
      with ("" +:+ String Str.slash (Str.join_slash (x :: D'))).
    rewrite split_app_slash, split_join_slash by done.
    unfold Path.normalizeString.
    change (Str.split "" ++ x :: D') with ("" :: x :: D').
    change (fold_left (Path.norm_step (negb true)) ("" :: x :: D') [])
      with (fold_left (Path.norm_step false) (x :: D') []).
    rewrite fold_norm_clean by done. by rewrite app_nil_r, rev_involutive.
  - rewrite app_empty_l, split_join_slash by done.
    unfold Path.normalizeString.
    rewrite fold_norm_clean by done. by rewrite app_nil_r, rev_involutive.
Qed.

Section PathClaims.

Variable self : FsBlobStorage.

Lemma getFilepath_components id :
  is_hex id = true →
  Path.isAbsolute (getFilepath self id) = Path.isAbsolute (dir self)
  ∧ Path.components (getFilepath self id)
    = Path.components (dir self)
      ++ filter (λ a : string, a ≠ "") (parts self id)
      ++ filter (λ a : string, a ≠ "") [id].
Proof.
  intros Hid. unfold getFilepath.
  destruct (getDirpath_components self id Hid) as [Habs Hcomp].
  destruct (decide (id = "")) as [->|Hne].
  - rewrite filter_cons_False by naive_solver. rewrite filter_nil, app_nil_r.
    rewrite <- join_filter, filter_cons_True by apply join_nonempty.
    rewrite filter_cons_False by naive_solver. rewrite filter_nil.
    destruct (join_components (getDirpath self "") [] (Forall_nil_2 _))
      as [-> ->].
    by rewrite app_nil_r.
  - rewrite filter_cons_True by done. rewrite filter_nil.
    destruct (join_components (getDirpath self id) [id]) as [-> ->].
    + by repeat constructor; apply is_hex_clean.
    + by rewrite Habs, Hcomp, <- app_assoc.
Qed.

Lemma parts_empty : parts self "" = repeat "" (depth self).
Proof.
  unfold parts.
  assert (H : ∀ l : list nat,
    map (λ i, Str.slice "" (i * 2) (i * 2 + 2))%nat l = repeat "" (length l)).
  { induction l as [|i l IH]; [done|].
    simpl. f_equal; [|done]. unfold Str.slice.
    by destruct (i * 2)%nat, (i * 2 + 2 - i * 2)%nat. }
  by rewrite H, length_seq.
Qed.

Lemma kept_parts_empty :
  filter (λ a : string, a ≠ "") (parts self "") = [].
Proof.
  rewrite parts_empty. induction (depth self) as [|d IH]; [done|].
  simpl. by rewrite filter_cons_False by naive_solver.
Qed.

(** Hexadecimal identifiers never share a file path, whatever their
    length. *)
Lemma getFilepath_inj_hex id1 id2 :
  is_hex id1 = true → is_hex id2 = true →
  getFilepath self id1 = getFilepath self id2 → id1 = id2.
Proof.
  intros H1 H2 Heq.
  destruct (getFilepath_components id1 H1) as [_ Hc1].
  destruct (getFilepath_components id2 H2) as [_ Hc2].
  rewrite Heq, Hc2 in Hc1. apply app_inv_head in Hc1.
  destruct (decide (id1 = "")) as [->|Hn1], (decide (id2 = "")) as [->|Hn2];
    [done| | |].
  - rewrite (filter_cons_False _ "") in Hc1 by naive_solver.
    rewrite (filter_cons_True _ id2) in Hc1 by done.
    rewrite !filter_nil, app_nil_r in Hc1.
    assert (Hp : parts self "" = repeat "" (depth self)).
    { apply parts_empty. }
    assert (Hf : filter (λ a : string, a ≠ "") (parts self "") = []).
    { apply kept_parts_empty. }
    rewrite Hf in Hc1. by destruct (filter _ (parts self id2)).
  - rewrite (filter_cons_False _ "") in Hc1 by naive_solver.
    rewrite (filter_cons_True _ id1) in Hc1 by done.
    rewrite !filter_nil, app_nil_r in Hc1.
    assert (Hp : parts self "" = repeat "" (depth self)).
    { apply parts_empty. }
    assert (Hf : filter (λ a : string, a ≠ "") (parts self "") = []).
    { apply kept_parts_empty. }
    rewrite Hf in Hc1. by destruct (filter _ (parts self id1)).
  - rewrite !filter_cons_True, !filter_nil in Hc1 by done.
    apply app_inj_tail in Hc1 as [_ ?]. done.
Qed.

(** For a long hexadecimal identifier both paths are renderings of the
    root's segments followed by all [depth] segments. *)
Lemma getFilepath_shard_parts id :
  is_hex id = true → id ≠ "" → (2 * depth self ≤ String.length id)%nat →
  getFilepath self id
  = Path.render (Path.isAbsolute (dir self))
      (Path.components (dir self) ++ parts self id ++ [id])
  ∧ (parts self id ≠ [] →
     getDirpath self id
     = Path.render (Path.isAbsolute (dir self))
         (Path.components (dir self) ++ parts self id))
  ∧ filter (λ a : string, a ≠ "") (parts self id) = parts self id.
Proof.
  intros Hid Hne Hlen.
  pose proof (kept_parts_all self id Hid Hlen) as Hall.
  split; [|split; [|done]].
  - rewrite getFilepath_render by done. by rewrite Hall.
  - intros Hparts. unfold getDirpath. apply join_render; [|done].
    rewrite <- Hall. by apply kept_parts_clean.
Qed.

End PathClaims.

(** ** The shard path of an identifier *)

(** C3: for a non-empty hexadecimal identifier at least [2 * depth]
    characters long, the [depth] segments are two characters each and are,
    in order, the first [2 * depth] characters of the identifier; the file
    path is the root's segments followed by these segments and the
    identifier itself, which for a root written in normal form is the
    string [root/seg1/.../segN/<identifier>]. *)
Theorem getFilepath_shard_path (self : FsBlobStorage) (id : string) :
  is_hex id = true → id ≠ "" → (2 * depth self ≤ String.length id)%nat →
  length (parts self id) = depth self
  ∧ Forall (λ s, String.length s = 2%nat) (parts self id)
  ∧ glue (parts self id) = String.substring 0 (2 * depth self) id
  ∧ getFilepath self id
    = Path.render (Path.isAbsolute (dir self))
        (Path.components (dir self) ++ parts self id ++ [id])
  ∧ ∀ a D, Forall (λ s, clean s = true) D → D ≠ [] →
      dir self = Path.render a D →
      getFilepath self id
      = dir self +:+ "/" +:+ Str.join_slash (parts self id ++ [id]).
Proof.
  intros Hid Hne Hlen.
  assert (Hpath : getFilepath self id
    = Path.render (Path.isAbsolute (dir self))
        (Path.components (dir self) ++ parts self id ++ [id])).
  { rewrite getFilepath_render by done. by rewrite kept_parts_all. }
  split; [apply parts_length|].
  split; [by apply parts_two|].
  split; [apply parts_glue|].
  split; [done|].
  intros a D HD HDne Hdir. rewrite Hpath.
  destruct (render_components a D HD HDne) as [Habs Hcomp].
  rewrite Hdir, Habs, Hcomp. unfold Path.render.
  rewrite join_slash_app by (done || by destruct (parts self id)).
  by rewrite app_assoc_str.
Qed.

Lemma getFilepath_shard_path_witness :
  getFilepath example_store "900150983cd24fb0d6963f7d28e17f72"
  = "root/90/01/50/900150983cd24fb0d6963f7d28e17f72".
Proof.
  destruct (getFilepath_shard_path example_store
              "900150983cd24fb0d6963f7d28e17f72" eq_refl
              ltac:(discriminate) ltac:(vm_compute; lia))
    as (_ & _ & _ & _ & H).
  rewrite (H false ["root"]);
    [reflexivity | repeat constructor | discriminate | reflexivity].
Defined.

(** C4: two distinct hexadecimal identifiers, both at least [2 * depth]
    characters long, never resolve to the same file path. *)
Theorem getFilepath_injective (self : FsBlobStorage) (id1 id2 : string) :
  is_hex id1 = true → is_hex id2 = true →
  (2 * depth self ≤ String.length id1)%nat →
  (2 * depth self ≤ String.length id2)%nat →
  id1 ≠ id2 → getFilepath self id1 ≠ getFilepath self id2.
Proof.
  intros H1 H2 _ _ Hne Heq. apply Hne.
  by apply (getFilepath_inj_hex self).
Qed.

Lemma getFilepath_injective_witness :
  getFilepath example_store "900150983cd24fb0d6963f7d28e17f72"
  ≠ getFilepath example_store "d41d8cd98f00b204e9800998ecf8427e".
Proof.
  apply getFilepath_injective;
    [reflexivity | reflexivity | vm_compute; lia | vm_compute; lia
    | discriminate].
Defined.

(** C10: an identifier shorter than [2 * depth] characters still resolves:
    [getDirpath] and [getFilepath] return a path, the slices past the end
    of the string being empty or truncated, so that the segments together
    are just the identifier and the last one has fewer than two characters.
    The directory is then shallower than [depth] levels; with depth 3 the
    identifiers [90], [9001] and [9090] land under [root/90], [root/90/01]
    and [root/90/90], the last being also the file path of [90]. *)
Theorem short_identifier_resolves (self : FsBlobStorage) (id : string) :
  (String.length id < 2 * depth self)%nat →
  getDirpath self id ≠ "" ∧ getFilepath self id ≠ ""
  ∧ length (parts self id) = depth self
  ∧ glue (parts self id) = id
  ∧ Exists (λ s, (String.length s < 2)%nat) (parts self id)
  ∧ (is_hex id = true →
     Path.components (getDirpath self id)
     = Path.components (dir self)
       ++ filter (λ a : string, a ≠ "") (parts self id))
  ∧ getDirpath example_store "90" = "root/90"
  ∧ getFilepath example_store "90" = "root/90/90"
  ∧ getDirpath example_store "9001" = "root/90/01"
  ∧ getFilepath example_store "9001" = "root/90/01/9001"
  ∧ getDirpath example_store "9090" = "root/90/90".
Proof.
  intros Hlen.
  split; [apply join_nonempty|]. split; [apply join_nonempty|].
  split; [apply parts_length|].
  split; [rewrite parts_glue; apply substring_all; lia|].
  split.
  - apply Exists_exists.
    exists (Str.slice id ((depth self - 1) * 2) ((depth self - 1) * 2 + 2)).
    split.
    + unfold parts. apply list_elem_of_In, in_map_iff.
      exists (depth self - 1)%nat. split; [done|]. apply in_seq. lia.
    + rewrite slice_pair, length_substring_min. lia.
  - split; [intros Hid; by apply getDirpath_components|].
    repeat split; vm_compute; reflexivity.
Qed.

Lemma short_identifier_resolves_witness :
  getDirpath example_store "90" ≠ ""
  ∧ glue (parts example_store "90") = "90".
Proof.
  destruct (short_identifier_resolves example_store "90"
              ltac:(vm_compute; lia)) as (H1 & _ & _ & H2 & _).
  split; [exact H1 | exact H2].
Defined.

(** ** Facts about the monad and the file system calls *)

Lemma bind_ok_inv {A B} (m : M A) (k : A → M B) w b w' :
  bind m k w = (Ok b, w') →
  ∃ a w1, m w = (Ok a, w1) ∧ k a w1 = (Ok b, w').
Proof.
  unfold bind. destruct (m w) as [[a|e] w1]; intros H; [|done].
  by exists a, w1.
Qed.

Lemma bind_ok {A B} (m : M A) (k : A → M B) w a w1 :
  m w = (Ok a, w1) → bind m k w = k a w1.
Proof. unfold bind. by intros ->. Qed.

Lemma bind_err {A B} (m : M A) (k : A → M B) w e w1 :
  m w = (Err e, w1) → bind m k w = (Err e, w1).
Proof. unfold bind. by intros ->. Qed.

Lemma existsP_run p w :
  existsP p w
  = (Ok (bool_decide (is_Some (Fs.lookup_node (files w) p))),
     Fs.log (OpExists p) w).
Proof. reflexivity. Qed.

(** ** Reads of missing blobs, deletes of missing blobs, staging conflicts *)





(** C9: when the staging path drawn for a streamed put already exists, the
    put is rejected with the Conflict error after the one existence check:
    no write stream is opened, no byte is written, no file is created or
    changed, and no second staging name is tried. *)
Theorem putStream_conflict (self : FsBlobStorage) (uuid : string)
    (readStream : list (list byte)) (w : world) :
  is_Some (Fs.lookup_node (files w) (tmpFilename self uuid)) →
  putStream self uuid readStream w
  = (Err (Error "File already exists"),
     Fs.log (OpExists (tmpFilename self uuid)) w)
  ∧ Conflict (Error "File already exists")
  ∧ files (putStream self uuid readStream w).2 = files w
  ∧ trace (putStream self uuid readStream w).2
    = trace w ++ [OpExists (tmpFilename self uuid)].
Proof.
  intros Hsome. unfold putStream, bind. rewrite existsP_run.
  rewrite bool_decide_eq_true_2 by done. by repeat split.
Qed.

Lemma putStream_conflict_witness :
  putStream example_store "u1" [bytes_of "abc"]
    (mkWorld {["/tmp/u1" := File []]} [])
  = (Err (Error "File already exists"),
     mkWorld {["/tmp/u1" := File []]} [OpExists "/tmp/u1"]).
Proof.
  destruct (putStream_conflict example_store "u1"
              [bytes_of "abc"] (mkWorld {["/tmp/u1" := File []]} []))
    as (H & _).
  - vm_compute. by eexists.
  - rewrite H. reflexivity.
Defined.

(** ** Facts about the hash object *)

Lemma update_app h xs ys :
  Crypto.update h (xs ++ ys) = Crypto.update (Crypto.update h xs) ys.
Proof. unfold Crypto.update. apply fold_left_app. Qed.

(** Feeding the chunks one by one is feeding their concatenation. *)
Lemma update_chunks chunks h :
  fold_left Crypto.update chunks h = Crypto.update h (concat chunks).
Proof.
  revert h. induction chunks as [|c chunks IH]; intros h; simpl; [done|].
  by rewrite IH, update_app.
Qed.

Lemma absorbed_feed h b :
  Crypto.absorbed (Crypto.feed h b) = Crypto.absorbed h + 1.
Proof. unfold Crypto.feed. by destruct (_ =? _)%nat. Qed.

Lemma absorbed_update h data :
  Crypto.absorbed (Crypto.update h data)
  = Crypto.absorbed h + Z.of_nat (length data).
Proof.
  revert h. induction data as [|b data IH]; intros h.
  - simpl. lia.
  - change (Crypto.update h (b :: data))
      with (Crypto.update (Crypto.feed h b) data).
    rewrite IH, absorbed_feed. simpl length. lia.
Qed.

Lemma hex_digit_is_hex n : is_hex_char (Crypto.hex_digit n) = true.
Proof.
  destruct n as [|p]; [done|].
  do 4 (try destruct p as [p|p|]); done.
Qed.

Lemma hex_of_bytes_is_hex bs : is_hex (Crypto.hex_of_bytes bs) = true.
Proof.
  induction bs as [|b bs IH]; [done|].
  simpl. by rewrite !hex_digit_is_hex, IH.
Qed.

Lemma hex_of_bytes_length bs :
  String.length (Crypto.hex_of_bytes bs) = (2 * length bs)%nat.
Proof. induction bs as [|b bs IH]; simpl; [done|]. rewrite IH. lia. Qed.

(** A digest is 32 lowercase hexadecimal characters. *)
Lemma digest_hex_format h :
  is_hex (Crypto.digest_hex h) = true
  ∧ String.length (Crypto.digest_hex h) = 32%nat.
Proof.
  unfold Crypto.digest_hex. split; [apply hex_of_bytes_is_hex|].
  rewrite hex_of_bytes_length. unfold Crypto.digest_bytes.
  by destruct (Crypto.chain _) as [[[a b] c] d].
Qed.

Lemma length_concat_sum (chunks : list (list byte)) (acc : Z) :
  fold_left (λ n c, n + Z.of_nat (length c)) chunks acc
  = acc + Z.of_nat (length (concat chunks)).
Proof.
  revert acc. induction chunks as [|c chunks IH]; intros acc; simpl.
  - lia.
  - rewrite IH, length_app. lia.
Qed.

(** ** Facts about the file system model *)

Lemma lookup_node_not_root fs p :
  Fs.lookup_node fs p ≠ Some Dir → Fs.is_root p = false.
Proof. unfold Fs.lookup_node. by destruct (Fs.is_root p). Qed.

Lemma lookup_node_insert fs p x :
  Fs.is_root p = false → Fs.lookup_node (<[p:=x]> fs) p = Some x.
Proof. unfold Fs.lookup_node. intros ->. apply lookup_insert_eq. Qed.

Lemma lookup_node_insert_ne fs p q x :
  p ≠ q → Fs.lookup_node (<[p:=x]> fs) q = Fs.lookup_node fs q.
Proof.
  intros Hne. unfold Fs.lookup_node.
  destruct (Fs.is_root q); [done|]. by apply lookup_insert_ne.
Qed.

Lemma lookup_node_delete fs p :
  Fs.is_root p = false → Fs.lookup_node (base.delete p fs) p = None.
Proof. unfold Fs.lookup_node. intros ->. apply lookup_delete_eq. Qed.

Lemma lookup_node_delete_ne fs p q :
  p ≠ q → Fs.lookup_node (base.delete p fs) q = Fs.lookup_node fs q.
Proof.
  intros Hne. unfold Fs.lookup_node.
  destruct (Fs.is_root q); [done|]. by apply lookup_delete_ne.
Qed.

Lemma lookup_node_mkdirs fs l q :
  q ∉ l →
  Fs.lookup_node (foldr (λ a m, <[a:=Dir]> m) fs l) q = Fs.lookup_node fs q.
Proof.
  induction l as [|a l IH]; intros Hq; simpl; [done|].
  apply not_elem_of_cons in Hq as [Hne Hq].
  rewrite lookup_node_insert_ne by done. by apply IH.
Qed.

Lemma store_file_ok syscall p content w w' :
  Fs.store_file syscall p content w = (Ok (), w') →
  Fs.lookup_node (files w') p = Some (File content)
  ∧ files w' = <[p:=File content]> (files w)
  ∧ trace w' = trace w.
Proof.
  unfold Fs.store_file. intros H.
  assert (Hroot : Fs.is_root p = false).
  { apply (lookup_node_not_root (files w)). intros E. by rewrite E in H. }
  destruct (Fs.lookup_node (files w) p) as [[c|]|];
    destruct (Fs.lookup_node (files w) (Path.dirname p)) as [[c'|]|];
    inversion H; subst; simpl; by rewrite lookup_node_insert.
Qed.

Lemma store_file_trace syscall p content w r w' :
  Fs.store_file syscall p content w = (r, w') → trace w' = trace w.
Proof.
  unfold Fs.store_file. intros H.
  destruct (Fs.lookup_node (files w) p) as [[c|]|];
    destruct (Fs.lookup_node (files w) (Path.dirname p)) as [[c'|]|];
    by inversion H.
Qed.

Lemma unlink_ok p w w' :
  Fs.unlink p w = (Ok (), w') →
  Fs.lookup_node (files w') p = None
  ∧ files w' = base.delete p (files w)
  ∧ trace w' = trace w ++ [OpUnlink p]
  ∧ ∃ content, Fs.lookup_node (files w) p = Some (File content).
Proof.
  unfold Fs.unlink. simpl. intros H.
  destruct (Fs.lookup_node (files w) p) as [[c|]|] eqn:E;
    inversion H; subst; simpl.
  split; [|by eauto].
  apply lookup_node_delete, (lookup_node_not_root (files w)). by rewrite E.
Qed.

Lemma mkdirp_ok p w w' :
  Fs.mkdirp p w = (Ok (), w') →
  trace w' = trace w ++ [OpMkdirp p]
  ∧ ∀ q, Fs.is_file (files w) q = true →
         Fs.lookup_node (files w') q = Fs.lookup_node (files w) q.
Proof.
  unfold Fs.mkdirp. simpl. intros H.
  destruct (Fs.is_file (files w) p); [done|].
  destruct (existsb (Fs.is_file (files w)) (Fs.ancestors p)) eqn:Ex; [done|].
  inversion H; subst; simpl. split; [done|].
  intros q Hq. apply lookup_node_mkdirs. intros Hin.
  apply list_elem_of_In in Hin.
  assert (existsb (Fs.is_file (files w)) (Fs.ancestors p) = true);
    [|congruence].
  apply existsb_exists. by exists q.
Qed.

Lemma writeChunk_ok p chunk w w' :
  Fs.writeChunk p chunk w = (Ok (), w') →
  trace w' = trace w ++ [OpWriteChunk p chunk]
  ∧ ∃ content, Fs.lookup_node (files w) p = Some (File content)
               ∧ Fs.lookup_node (files w') p = Some (File (content ++ chunk)).
Proof.
  unfold Fs.writeChunk. simpl. intros H.
  destruct (Fs.lookup_node (files w) p) as [[c|]|] eqn:E;
    inversion H; subst; simpl.
  split; [done|]. exists c. split; [done|].
  apply lookup_node_insert, (lookup_node_not_root (files w)). by rewrite E.
Qed.

(** The pipe: what has been hashed and counted is what has been appended
    to the staging file. *)
Lemma pump_ok tmpFile chunks hash byteCount w hash' byteCount' w' :
  pump tmpFile chunks hash byteCount w = (Ok (hash', byteCount'), w') →
  hash' = Crypto.update hash (concat chunks)
  ∧ byteCount' = byteCount + Z.of_nat (length (concat chunks))
  ∧ trace w' = trace w ++ map (OpWriteChunk tmpFile) chunks
  ∧ ∀ content, Fs.lookup_node (files w) tmpFile = Some (File content) →
      Fs.lookup_node (files w') tmpFile
      = Some (File (content ++ concat chunks)).
Proof.
  revert hash byteCount w.
  induction chunks as [|c chunks IH]; intros hash byteCount w H.
  - inversion H; subst. simpl.
    split; [done|]. split; [lia|]. split; [by rewrite app_nil_r|].
    intros content Hcontent. by rewrite app_nil_r.
  - simpl in H. apply bind_ok_inv in H as ([] & w1 & Hw & H).
    apply writeChunk_ok in Hw as (Htr & c0 & Hc0 & Hc1).
    apply IH in H as (-> & -> & Htr' & Hfile).
    simpl. rewrite update_app, length_app, Htr', Htr, <- app_assoc.
    split; [done|]. split; [lia|]. split; [done|].
    intros content Hcontent. rewrite Hcontent in Hc0. inversion Hc0; subst.
    rewrite (Hfile _ Hc1). by rewrite <- app_assoc.
Qed.

(** ** What a completed put has done *)

Lemma putStream_ok_inv self uuid chunks w r w1 :
  putStream self uuid chunks w = (Ok r, w1) →
  let tmpFile := tmpFilename self uuid in
  let md5 := Crypto.md5_hex (concat chunks) in
  let filepath := getFilepath self md5 in
  let staged :=
    trace w ++ OpExists tmpFile :: OpCreateWriteStream tmpFile
            :: map (OpWriteChunk tmpFile) chunks in
  r = Md5Object md5 (Z.of_nat (length (concat chunks)))
  ∧ Fs.lookup_node (files w) tmpFile = None
  ∧ Fs.lookup_node (files w1) tmpFile = None
  ∧ ((trace w1 = staged ++ [OpExists filepath; OpUnlink tmpFile])
     ∨ (trace w1 = staged ++ [OpExists filepath;
                              OpMkdirp (Path.dirname filepath);
                              OpCopyFile tmpFile filepath;
                              OpUnlink tmpFile]
        ∧ Fs.lookup_node (files w1) filepath = Some (File (concat chunks)))).
Proof.
  intros H. cbv zeta. unfold putStream in H.
  apply bind_ok_inv in H as (ex1 & wA & HA & H).
  rewrite existsP_run in HA. inversion HA as [[Hex1 HwA]]. clear HA.
  destruct ex1; [done|].
  apply bool_decide_eq_false in Hex1.
  assert (Htmp0 : Fs.lookup_node (files w) (tmpFilename self uuid) = None).
  { destruct (Fs.lookup_node _ _) eqn:E; [|done]. destruct Hex1. by eexists. }
  apply bind_ok_inv in H as ([] & wB & HB & H).
  unfold Fs.createWriteStream in HB.
  apply store_file_ok in HB as (HtmpB & _ & HtrB).
  apply bind_ok_inv in H as ([hash' byteCount'] & wC & HC & H).
  apply pump_ok in HC as (-> & -> & HtrC & HtmpC).
  specialize (HtmpC _ HtmpB). rewrite app_nil_l in HtmpC.
  apply bind_ok_inv in H as (ex2 & wD & HD & H).
  rewrite existsP_run in HD. inversion HD as [[Hex2 HwD]]. clear HD.
  apply bind_ok_inv in H as ([] & wE & HE & H).
  inversion H; subst r w1. clear H.
  cbn [fst snd] in *.
  change (Crypto.digest_hex (Crypto.update Crypto.createHash (concat chunks)))
    with (Crypto.md5_hex (concat chunks)) in *.
  assert (HtrD : trace wD
    = (trace w ++ OpExists (tmpFilename self uuid)
         :: OpCreateWriteStream (tmpFilename self uuid)
         :: map (OpWriteChunk (tmpFilename self uuid)) chunks)
      ++ [OpExists (getFilepath self (Crypto.md5_hex (concat chunks)))]).
  { subst wD wA. simpl in *. rewrite HtrC, HtrB. simpl.
    by rewrite <- !app_assoc. }
  split; [by rewrite Z.add_0_l|]. split; [done|].
  destruct ex2.
  - apply unlink_ok in HE as (Hgone & _ & HtrE & _).
    split; [done|]. left. rewrite HtrE, HtrD. by rewrite <- !app_assoc.
  - apply bool_decide_eq_false in Hex2.
    assert (HfpC : Fs.lookup_node (files wC)
              (getFilepath self (Crypto.md5_hex (concat chunks))) = None).
    { destruct (Fs.lookup_node (files wC)
                 (getFilepath self (Crypto.md5_hex (concat chunks)))) eqn:E;
        [|done].
      destruct Hex2. by eexists. }
    assert (Hne : tmpFilename self uuid
                  ≠ getFilepath self (Crypto.md5_hex (concat chunks))).
    { intros E. rewrite <- E in HfpC. by rewrite HfpC in HtmpC. }
    apply bind_ok_inv in HE as ([] & wF & HF & HE).
    apply mkdirp_ok in HF as (HtrF & HkeepF).
    assert (HtmpF : Fs.lookup_node (files wF) (tmpFilename self uuid)
                    = Some (File (concat chunks))).
    { rewrite HkeepF; subst wD; simpl; [done|].
      unfold Fs.is_file. by rewrite HtmpC. }
    apply bind_ok_inv in HE as ([] & wG & HG & HE).
    unfold Fs.copyFile in HG. simpl in HG. rewrite HtmpF in HG.
    pose proof (store_file_trace _ _ _ _ _ _ HG) as HtrG.
    apply store_file_ok in HG as (HfpG & _ & _). simpl in HtrG.
    apply unlink_ok in HE as (Hgone & HfilesE & HtrE & _).
    split; [done|]. right. split.
    + rewrite HtrE, HtrG, HtrF, HtrD. by rewrite <- !app_assoc.
    + rewrite HfilesE, lookup_node_delete_ne by done. exact HfpG.
Qed.

(** A buffer put whose blob file exists: one existence check, and the
    digest string as the value. *)
Lemma put_buffer_existing filepath self uuid bytes w :
  filepath = getFilepath self (Crypto.md5_hex bytes) →
  is_Some (Fs.lookup_node (files w) filepath) →
  put self uuid (Buffer bytes) w
  = (Ok (Md5String (Crypto.md5_hex bytes)), Fs.log (OpExists filepath) w).
Proof.
  intros -> Hsome. unfold put, bind. rewrite existsP_run.
  by rewrite bool_decide_eq_true_2 by done.
Qed.

Lemma put_buffer_ok_inv self uuid bytes w r w1 :
  put self uuid (Buffer bytes) w = (Ok r, w1) →
  let md5 := Crypto.md5_hex bytes in
  let filepath := getFilepath self md5 in
  (r = Md5String md5
   ∧ is_Some (Fs.lookup_node (files w) filepath)
   ∧ files w1 = files w
   ∧ trace w1 = trace w ++ [OpExists filepath])
  ∨ (r = Md5Object md5 (Z.of_nat (length bytes))
     ∧ Fs.lookup_node (files w) filepath = None
     ∧ Fs.lookup_node (files w1) filepath = Some (File bytes)
     ∧ trace w1 = trace w ++ [OpExists filepath;
                              OpMkdirp (getDirpath self md5);
                              OpWriteFile filepath bytes]).
Proof.
  intros H. cbv zeta. unfold put in H.
  change (Crypto.digest_hex (Crypto.update Crypto.createHash bytes))
    with (Crypto.md5_hex bytes) in H.
  apply bind_ok_inv in H as (ex & wA & HA & H).
  rewrite existsP_run in HA. inversion HA as [[Hex HwA]]. clear HA.
  destruct ex.
  - left. inversion H; subst.
    apply bool_decide_eq_true in Hex. by repeat split.
  - right. apply bool_decide_eq_false in Hex.
    apply bind_ok_inv in H as ([] & wB & HB & H).
    apply mkdirp_ok in HB as (HtrB & _).
    apply bind_ok_inv in H as ([] & wC & HC & H).
    unfold Fs.writeFile in HC.
    pose proof (store_file_trace _ _ _ _ _ _ HC) as HtrC.
    apply store_file_ok in HC as (HfpC & _ & _).
    inversion H; subst. simpl in *.
    split; [done|]. split.
    { destruct (Fs.lookup_node (files w)
                 (getFilepath self (Crypto.md5_hex bytes))) eqn:E; [|done].
      destruct Hex. by eexists. }
    split; [done|]. rewrite HtrC, HtrB. by rewrite <- !app_assoc.
Qed.

(** What [get] hands back when a file sits at the shard path: a buffer as
    long as the range length, holding the bytes the file has from the
    start of the range on, then the zeros the buffer was created with. *)
Lemma get_file (getRangeLength : Z * Z → Z) self id range w content :
  Fs.lookup_node (files w) (getFilepath self id) = Some (File content) →
  0 ≤ getRangeLength range →
  let filepath := getFilepath self id in
  let len := getRangeLength range in
  let got := take (Z.to_nat len) (drop (Z.to_nat range.1) content) in
  get getRangeLength self id range w
  = (Ok (got ++ drop (length got) (repeat x00 (Z.to_nat len))),
     Fs.log (OpClose filepath)
       (Fs.log (OpRead filepath len range.1)
          (Fs.log (OpOpen filepath) (Fs.log (OpExists filepath) w)))).
Proof.
  intros Hfile Hlen. cbv zeta. unfold get, lift, Buffer_alloc.
  destruct (Z.ltb_spec (getRangeLength range) 0) as [?|_]; [lia|].
  unfold bind at 1. unfold bind at 1. rewrite existsP_run, Hfile.
  rewrite bool_decide_eq_true_2 by (by eexists).
  unfold bind at 1. unfold Fs.open. simpl. rewrite Hfile.
  unfold bind at 1. unfold Fs.read. simpl. rewrite Hfile.
  reflexivity.
Qed.

(** ** Puts and reads *)

(** C1: a buffer put on an empty store resolves with the object
    [{md5, byteCount}]; putting the same buffer again, when its blob file
    exists, asks the file system only whether the file exists, changes
    nothing, and resolves with the digest string alone. *)
Theorem put_again_resolves_with_digest_string :
  let abc := Buffer (bytes_of "abc") in
  let id := "900150983cd24fb0d6963f7d28e17f72" in
  let filepath := "root/90/01/50/900150983cd24fb0d6963f7d28e17f72" in
  let first := put example_store "u1" abc empty_world in
  let again := put example_store "u2" abc first.2 in
  first.1 = Ok (Md5Object id 3)
  ∧ files first.2 !! filepath = Some (File (bytes_of "abc"))
  ∧ again.1 = Ok (Md5String id)
  ∧ again.1 ≠ first.1
  ∧ files again.2 = files first.2
  ∧ trace again.2 = trace first.2 ++ [OpExists filepath].
Proof.
  cbv zeta.
  assert (H1 : (put example_store "u1" (Buffer (bytes_of "abc"))
                  empty_world).1
               = Ok (Md5Object "900150983cd24fb0d6963f7d28e17f72" 3))
    by (vm_compute; reflexivity).
  assert (H2 : files (put example_store "u1" (Buffer (bytes_of "abc"))
                        empty_world).2
               !! "root/90/01/50/900150983cd24fb0d6963f7d28e17f72"
               = Some (File (bytes_of "abc")))
    by (vm_compute; reflexivity).
  set (first := put example_store "u1" (Buffer (bytes_of "abc")) empty_world)
    in *.
  rewrite (put_buffer_existing
             "root/90/01/50/900150983cd24fb0d6963f7d28e17f72"
             example_store "u2" (bytes_of "abc") first.2).
  - rewrite H1. by repeat split.
  - vm_compute; reflexivity.
  - unfold Fs.lookup_node. rewrite H2. by eexists.
Qed.

(** C2: after a buffer put of [b] has resolved, on a store whose shard
    path for [b] was free or already held [b], a [get] of the digest of
    [b] over [s, e] with [0 <= s <= e <= len b] resolves with the bytes
    [b[s:e]], the range length being the half-open [e - s]; over
    [0, len b] it resolves with [b]. *)
Theorem put_get_roundtrip (getRangeLength : Z * Z → Z)
    (self : FsBlobStorage) (uuid : string) (b : list byte)
    (w w1 : world) (r : put_value) (s e : Z) :
  put self uuid (Buffer b) w = (Ok r, w1) →
  Fs.lookup_node (files w) (getFilepath self (Crypto.md5_hex b)) = None
  ∨ Fs.lookup_node (files w) (getFilepath self (Crypto.md5_hex b))
    = Some (File b) →
  0 ≤ s ≤ e ∧ e ≤ Z.of_nat (length b) →
  (∀ range, getRangeLength range = range.2 - range.1) →
  md5_of r = Crypto.md5_hex b
  ∧ (get getRangeLength self (md5_of r) (s, e) w1).1 = Ok (bytes_slice b s e)
  ∧ (get getRangeLength self (md5_of r) (0, Z.of_nat (length b)) w1).1
    = Ok b
  ∧ files (get getRangeLength self (md5_of r) (s, e) w1).2 = files w1.
Proof.
  intros Hput Htrust Hrange Hgrl.
  assert (Hlen : getRangeLength (s, e) = e - s) by apply Hgrl.
  assert (Hfull : getRangeLength (0, Z.of_nat (length b))
                  = Z.of_nat (length b)).
  { rewrite Hgrl. simpl. lia. }
  assert (Hfile : md5_of r = Crypto.md5_hex b
    ∧ Fs.lookup_node (files w1) (getFilepath self (Crypto.md5_hex b))
      = Some (File b)).
  { apply put_buffer_ok_inv in Hput
      as [(-> & Hsome & Hfiles & _)|(-> & _ & Hfile & _)]; [|done].
    split; [done|]. rewrite Hfiles.
    destruct Htrust as [Hnone|Hb]; [|done].
    rewrite Hnone in Hsome. by destruct Hsome. }
  destruct Hfile as [-> Hfile]. split; [done|].
  rewrite !(get_file getRangeLength self _ _ w1 b Hfile) by (simpl; lia).
  cbn [fst snd]. rewrite Hlen, Hfull.
  assert (Hall : ∀ n (l : list byte), length l = n →
            l ++ drop (length l) (repeat x00 n) = l).
  { intros n l Hl. rewrite drop_ge, app_nil_r; [done|].
    rewrite repeat_length. lia. }
  split; [|split; [|done]].
  - unfold bytes_slice. f_equal. apply Hall.
    rewrite length_take, length_drop. lia.
  - f_equal. change (Z.to_nat 0) with 0%nat. rewrite drop_0, Nat2Z.id.
    rewrite firstn_all. by apply Hall.
Qed.

Lemma put_get_roundtrip_witness :
  let w1 := (put example_store "u1" (Buffer (bytes_of "abc")) empty_world).2 in
  (get (λ r, r.2 - r.1) example_store "900150983cd24fb0d6963f7d28e17f72"
     (1, 3) w1).1
  = Ok (bytes_of "bc").
Proof.
  cbv zeta.
  destruct (put_get_roundtrip (λ r, r.2 - r.1) example_store "u1"
              (bytes_of "abc") empty_world
              (put example_store "u1" (Buffer (bytes_of "abc")) empty_world).2
              (Md5Object "900150983cd24fb0d6963f7d28e17f72" 3) 1 3)
    as (_ & H & _).
  - vm_compute. reflexivity.
  - left. vm_compute. reflexivity.
  - vm_compute. repeat split; discriminate.
  - reflexivity.
  - exact H.
Defined.

(** C7: a streamed put of the chunks of [b], in whatever way [b] is cut
    into chunks, resolves with the same digest as a buffer put of [b]: the
    hash object fed chunk by chunk ends in the state reached by feeding it
    [b] at once, and the count of bytes is the length of [b]. *)
Theorem streamed_put_same_identifier (self : FsBlobStorage)
    (uuid uuid' : string) (chunks : list (list byte))
    (w w1 w' w2 : world) (r1 r2 : put_value) :
  put self uuid (Readable chunks) w = (Ok r1, w1) →
  put self uuid' (Buffer (concat chunks)) w' = (Ok r2, w2) →
  fold_left Crypto.update chunks Crypto.createHash
  = Crypto.update Crypto.createHash (concat chunks)
  ∧ md5_of r1 = md5_of r2
  ∧ r1 = Md5Object (Crypto.md5_hex (concat chunks))
           (Z.of_nat (length (concat chunks))).
Proof.
  intros Hstream Hbuffer. split; [apply update_chunks|].
  apply putStream_ok_inv in Hstream as (-> & _).
  apply put_buffer_ok_inv in Hbuffer as [(-> & _)|(-> & _)]; by split.
Qed.

Lemma streamed_put_same_identifier_witness :
  md5_of (Md5Object "900150983cd24fb0d6963f7d28e17f72" 3)
  = md5_of (Md5Object "900150983cd24fb0d6963f7d28e17f72" 3)
  ∧ fold_left Crypto.update [bytes_of "a"; bytes_of "bc"] Crypto.createHash
    = Crypto.update Crypto.createHash (bytes_of "abc").
Proof.
  destruct (streamed_put_same_identifier example_store "u1" "u2"
              [bytes_of "a"; bytes_of "bc"]
              tmp_world
              (put example_store "u1"
                 (Readable [bytes_of "a"; bytes_of "bc"]) tmp_world).2
              empty_world
              (put example_store "u2" (Buffer (bytes_of "abc")) empty_world).2
              (Md5Object "900150983cd24fb0d6963f7d28e17f72" 3)
              (Md5Object "900150983cd24fb0d6963f7d28e17f72" 3))
    as (H1 & H2 & _).
  - vm_compute. reflexivity.
  - vm_compute. reflexivity.
  - split; [exact H2 | exact H1].
Defined.



(** ** A first put on a store that can take it resolves *)

Lemma list_ascii_app s t :
  String.list_ascii_of_string (s +:+ t)
  = String.list_ascii_of_string s ++ String.list_ascii_of_string t.
Proof.
  induction s as [|c s IH]; [done|]. rewrite app_cons. simpl. by rewrite IH.
Qed.

Lemma no_slash_chars s :
  Str.no_slash s = true →
  Forall (λ c, Str.is_slash c = false) (String.list_ascii_of_string s).
Proof.
  induction s as [|c s IH]; simpl; [constructor|].
  intros [Hc Hs]%andb_true_iff. apply negb_true_iff in Hc.
  constructor; auto.
Qed.

Lemma drop_while_keep {A} (f : A → bool) x l :
  f x = false → Path.drop_while f (x :: l) = x :: l.
Proof. simpl. by intros ->. Qed.

Lemma drop_while_skip {A} (f : A → bool) l1 l2 :
  Forall (λ x, f x = true) l1 →
  Path.drop_while f (l1 ++ l2) = Path.drop_while f l2.
Proof. induction 1 as [|x l1 Hx _ IH]; simpl; [done|]. by rewrite Hx. Qed.

Lemma length_drop_while {A} (f : A → bool) l :
  (length (Path.drop_while f l) ≤ length l)%nat.
Proof.
  induction l as [|x l IH]; simpl; [done|]. destruct (f x); simpl; lia.
Qed.

Lemma length_list_ascii s :
  length (String.list_ascii_of_string s) = String.length s.
Proof. induction s; simpl; auto. Qed.

Lemma length_string_of_list l :
  String.length (String.string_of_list_ascii l) = length l.
Proof. induction l; simpl; auto. Qed.

(** The directory of [X/id] is [X], for a segment [id] and a path [X]
    other than the root. *)
Lemma dirname_segment X id :
  X ≠ "" → X ≠ "/" → id ≠ "" → Str.no_slash id = true →
  Path.dirname (X +:+ String Str.slash id) = X.
Proof.
  intros HX Hroot Hid Hns. destruct X as [|c0 X']; [done|].
  rewrite app_cons. unfold Path.dirname.
  rewrite list_ascii_app. simpl String.list_ascii_of_string.
  rewrite rev_app_distr. simpl rev. rewrite <- app_assoc. simpl app.
  pose proof (no_slash_chars id Hns) as Hchars.
  apply Forall_rev in Hchars.
  destruct (rev (String.list_ascii_of_string id)) as [|x l] eqn:Erev.
  { apply (f_equal (@rev ascii)) in Erev. rewrite rev_involutive in Erev.
    by destruct id. }
  inversion Hchars as [|?? Hx Hl]; subst.
  change ((x :: l) ++ Str.slash :: rev (String.list_ascii_of_string X'))
    with (x :: l ++ Str.slash :: rev (String.list_ascii_of_string X')).
  rewrite drop_while_keep by done.
  change (x :: l ++ Str.slash :: rev (String.list_ascii_of_string X'))
    with ((x :: l) ++ Str.slash :: rev (String.list_ascii_of_string X')).
  rewrite drop_while_skip.
  - simpl. rewrite rev_involutive, String.string_of_list_ascii_of_string.
    destruct (Str.is_slash c0) eqn:Ec0; [|done]. simpl.
    destruct (Str.is_empty _) eqn:Ee; [|done].
    destruct X' as [|c1 X'']; simpl in Ee.
    + unfold Str.is_slash in Ec0. apply bool_decide_eq_true in Ec0.
      by subst.
    + destruct (rev (String.list_ascii_of_string X'') ++ [c1]) eqn:E;
        [by destruct (rev (String.list_ascii_of_string X''))|done].
  - eapply Forall_impl; [exact Hchars|]. intros c Hc. simpl. by rewrite Hc.
Qed.

Lemma length_dirname p :
  p ≠ "" → (String.length (Path.dirname p) ≤ String.length p)%nat.
Proof.
  destruct p as [|c0 rest]; [done|]. intros _. unfold Path.dirname.
  pose proof (length_drop_while Str.is_slash
                (rev (String.list_ascii_of_string rest))) as H1.
  pose proof (length_drop_while (λ c, negb (Str.is_slash c))
                (Path.drop_while Str.is_slash
                   (rev (String.list_ascii_of_string rest)))) as H2.
  rewrite length_rev, length_list_ascii in H1.
  destruct (Path.drop_while (λ c, negb (Str.is_slash c)) _) as [|x r3].
  - destruct (Str.is_slash c0); simpl; lia.
  - simpl in H2. destruct (_ && _).
    + simpl. lia.
    + simpl. rewrite length_string_of_list, length_rev. lia.
Qed.

Lemma ancestors_upto_length fuel p q :
  q ∈ Fs.ancestors_upto fuel p → (String.length q ≤ String.length p)%nat.
Proof.
  revert p. induction fuel as [|n IH]; intros p; simpl.
  - by intros ?%elem_of_nil.
  - destruct (Fs.is_root p) eqn:Er; [by intros ?%elem_of_nil|].
    intros [Hin| ->%list_elem_of_singleton]%elem_of_app; [|done].
    destruct (decide (p = "")) as [->|Hp].
    + destruct n; simpl in Hin; by apply elem_of_nil in Hin.
    + apply IH in Hin. pose proof (length_dirname p Hp). lia.
Qed.

Lemma ancestors_self p :
  Fs.is_root p = false → p ∈ Fs.ancestors p.
Proof.
  intros Hr. unfold Fs.ancestors. simpl. rewrite Hr.
  apply elem_of_app. right. by apply list_elem_of_singleton.
Qed.

Lemma lookup_node_mkdirs_in fs l q :
  q ∈ l →
  Fs.lookup_node (foldr (λ a m, <[a:=Dir]> m) fs l) q = Some Dir.
Proof.
  induction l as [|a l IH]; [by intros ?%elem_of_nil|].
  intros Hin. simpl. unfold Fs.lookup_node.
  destruct (Fs.is_root q) eqn:Er; [done|].
  destruct (decide (a = q)) as [->|Hne].
  - apply lookup_insert_eq.
  - rewrite lookup_insert_ne by done.
    apply elem_of_cons in Hin as [->|Hin]; [done|].
    specialize (IH Hin). unfold Fs.lookup_node in IH. by rewrite Er in IH.
Qed.

Lemma length_app_str s t :
  String.length (s +:+ t) = (String.length s + String.length t)%nat.
Proof. induction s as [|c s IH]; [done|]. rewrite app_cons. simpl. lia. Qed.

Section FreshPut.

Variable self : FsBlobStorage.

(** With at least one level of sharding the file sits directly in the
    shard directory. *)
Lemma getFilepath_in_getDirpath id :
  is_hex id = true → (1 ≤ depth self)%nat →
  (2 * depth self ≤ String.length id)%nat →
  getFilepath self id = getDirpath self id +:+ String Str.slash id
  ∧ Path.dirname (getFilepath self id) = getDirpath self id.
Proof.
  intros Hid Hd Hlen.
  assert (Hne : id ≠ "") by (destruct id; [simpl in Hlen; lia|done]).
  destruct (getFilepath_shard_parts self id Hid Hne Hlen)
    as (Hfp & Hdp & Hparts).
  assert (Hpne : parts self id ≠ []).
  { pose proof (parts_length self id) as Hl.
    destruct (parts self id); [simpl in Hl; lia|done]. }
  specialize (Hdp Hpne).
  assert (E : getFilepath self id
              = getDirpath self id +:+ String Str.slash id).
  { rewrite Hfp, Hdp. unfold Path.render.
    rewrite app_assoc, join_slash_app;
      [by rewrite app_assoc_str| |done].
    destruct (parts self id); [done|]. by destruct (Path.components _). }
  split; [done|]. rewrite E. apply dirname_segment; [| |done|].
  - apply join_nonempty.
  - rewrite Hdp. unfold Path.render.
    destruct (Path.components (dir self) ++ parts self id) as [|x N] eqn:EN.
    { destruct (parts self id); [done|]. by destruct (Path.components _). }
    assert (Hx : x ≠ "").
    { destruct (components_normal (dir self)) as (cs & k & HN & Hcs & _).
      pose proof (normal_nonempty_all k cs Hcs) as Hall.
      rewrite <- HN in Hall.
      assert (Hall' : Forall (λ s, s ≠ "" ∧ Str.no_slash s = true)
                        (Path.components (dir self) ++ parts self id)).
      { apply Forall_app. split; [done|].
        pose proof (kept_parts_clean self id Hid) as Hk.
        rewrite (kept_parts_all self id Hid Hlen) in Hk.
        apply (normal_nonempty_all 0 _ Hk). }
      rewrite EN in Hall'. by inversion Hall' as [|?? [? _] _]. }
    pose proof (join_slash_nonempty x N Hx) as Hj.
    destruct (Path.isAbsolute (dir self)).
    + destruct (Str.join_slash (x :: N)); done.
    + rewrite app_empty_l. intros E'. rewrite E' in Hj.
      pose proof (join_slash_starts x N Hx) as Hs. rewrite E' in Hs.
      destruct (components_normal (dir self)) as (cs & k & HN & Hcs & _).
      assert (Hxs : Str.no_slash x = true).
      { assert (Hall' : Forall (λ s, Str.no_slash s = true)
                          (Path.components (dir self) ++ parts self id)).
        { apply Forall_app. split.
          - rewrite HN. by apply normal_no_slash_all.
          - pose proof (kept_parts_clean self id Hid) as Hk.
            rewrite (kept_parts_all self id Hid Hlen) in Hk.
            by apply clean_no_slash_all. }
        rewrite EN in Hall'. by inversion Hall'. }
      apply no_slash_starts in Hxs. rewrite Hxs in Hs.
      vm_compute in Hs. discriminate.
  - by apply is_hex_no_slash.
Qed.

(** A buffer put on a world where the shard path is free and no regular
    file lies on the chain of shard directories resolves with the object
    and leaves the buffer at the shard path. *)
Lemma put_buffer_fresh uuid b w :
  (1 ≤ depth self ≤ 16)%nat →
  Fs.lookup_node (files w) (getFilepath self (Crypto.md5_hex b)) = None →
  (∀ q, q ∈ Fs.ancestors (getDirpath self (Crypto.md5_hex b)) →
        Fs.is_file (files w) q = false) →
  ∃ w1,
    put self uuid (Buffer b) w
    = (Ok (Md5Object (Crypto.md5_hex b) (Z.of_nat (length b))), w1)
    ∧ Fs.lookup_node (files w1) (getFilepath self (Crypto.md5_hex b))
      = Some (File b).
Proof.
  intros Hdepth Hfree Hchain.
  destruct (digest_hex_format (Crypto.update Crypto.createHash b))
    as [Hhex Hlen32].
  change (Crypto.digest_hex (Crypto.update Crypto.createHash b))
    with (Crypto.md5_hex b) in Hhex, Hlen32.
  destruct (getFilepath_in_getDirpath (Crypto.md5_hex b) Hhex)
    as [Hfp Hdir]; [lia|lia|].
  set (id := Crypto.md5_hex b) in *.
  set (fp := getFilepath self id) in *.
  set (dp := getDirpath self id) in *.
  assert (Hnotin : fp ∉ Fs.ancestors dp).
  { intros Hin%ancestors_upto_length. rewrite Hfp, length_app_str in Hin.
    simpl in Hin. lia. }
  assert (Hdpfile : Fs.is_file (files w) dp = false).
  { destruct (Fs.is_root dp) eqn:Er.
    - unfold Fs.is_file, Fs.lookup_node. by rewrite Er.
    - by apply Hchain, ancestors_self. }
  assert (Hnone : existsb (Fs.is_file (files w)) (Fs.ancestors dp) = false).
  { apply not_true_is_false. intros (q & Hq & Hf)%existsb_exists.
    apply list_elem_of_In in Hq. rewrite (Hchain q Hq) in Hf. done. }
  set (fs1 := foldr (λ a m, <[a:=Dir]> m) (files w) (Fs.ancestors dp)).
  assert (Hfp1 : Fs.lookup_node fs1 fp = None).
  { unfold fs1. by rewrite lookup_node_mkdirs. }
  assert (Hroot : Fs.is_root fp = false).
  { apply (lookup_node_not_root (files w)). by rewrite Hfree. }
  assert (Hdp1 : Fs.lookup_node fs1 dp = Some Dir).
  { destruct (Fs.is_root dp) eqn:Er.
    - unfold Fs.lookup_node. by rewrite Er.
    - apply lookup_node_mkdirs_in. by apply ancestors_self. }
  eexists. unfold put.
  change (Crypto.digest_hex (Crypto.update Crypto.createHash b)) with id.
  fold fp dp. unfold bind at 1. rewrite existsP_run, Hfree.
  rewrite bool_decide_eq_false_2 by (by intros [? ?]).
  unfold bind at 1. unfold Fs.mkdirp. cbn [files Fs.log].
  rewrite Hdpfile, Hnone. fold fs1.
  unfold bind at 1. unfold Fs.writeFile, Fs.store_file.
  cbn [files Fs.log Fs.set_files]. rewrite Hfp1, Hdir, Hdp1.
  unfold ret. split; [reflexivity|].
  cbn [files Fs.set_files]. by apply lookup_node_insert.
Qed.

End FreshPut.

(** On a disk holding nothing, every buffer put resolves and stores the
    buffer, for any store with one to sixteen levels of sharding. *)
Lemma put_on_empty_world self uuid b :
  (1 ≤ depth self ≤ 16)%nat →
  ∃ w1,
    put self uuid (Buffer b) empty_world
    = (Ok (Md5Object (Crypto.md5_hex b) (Z.of_nat (length b))), w1)
    ∧ Fs.lookup_node (files w1) (getFilepath self (Crypto.md5_hex b))
      = Some (File b).
Proof.
  intros Hdepth. apply put_buffer_fresh; [done| |].
  - destruct (digest_hex_format (Crypto.update Crypto.createHash b))
      as [Hhex Hlen32].
    change (Crypto.digest_hex (Crypto.update Crypto.createHash b))
      with (Crypto.md5_hex b) in Hhex, Hlen32.
    destruct (getFilepath_in_getDirpath self (Crypto.md5_hex b) Hhex)
      as [Hfp _]; [lia|lia|].
    unfold Fs.lookup_node, Fs.is_root.
    assert (Hlen : (String.length (getFilepath self (Crypto.md5_hex b)) > 1)%nat).
    { rewrite Hfp, length_app_str. simpl. lia. }
    rewrite !bool_decide_eq_false_2; [apply lookup_empty| |].
    + intros E. rewrite E in Hlen. simpl in Hlen. lia.
    + intros E. rewrite E in Hlen. simpl in Hlen. lia.
  - intros q _. unfold Fs.is_file, Fs.lookup_node.
    destruct (Fs.is_root q); [done|]. simpl. by rewrite lookup_empty.
Qed.

(** Strings that contain separators are not identifiers: [join] folds
    them, and two of them can resolve to one path. *)
Remark getFilepath_collision_with_separators :
  getFilepath (mkStore "root" 1 "/tmp") "a/b" = "root/a/a/b"
  ∧ getFilepath (mkStore "root" 1 "/tmp") "a//b" = "root/a/a/b".
Proof. split; vm_compute; reflexivity. Qed.

(** The read length decides what [get] returns: were [getRangeLength] the
    closed length [e - s + 1], a [get] over [0, len b] would hand back one
    byte more than [b]. *)
Remark get_with_closed_length_overshoots :
  let w1 := (put example_store "u1" (Buffer (bytes_of "abc")) empty_world).2 in
  (get (λ r, r.2 - r.1 + 1) example_store
     "900150983cd24fb0d6963f7d28e17f72" (0, 3) w1).1
  = Ok (bytes_of "abc" ++ [x00]).
Proof. vm_compute. reflexivity. Qed.

(** * Further properties of the store *)

(** ** Frames of the file system calls *)

Lemma bind_inv {A B} (m : M A) (k : A → M B) w r w1 :
  bind m k w = (r, w1) →
  (∃ e, m w = (Err e, w1) ∧ r = Err e)
  ∨ (∃ a w', m w = (Ok a, w') ∧ k a w' = (r, w1)).
Proof.
  unfold bind. destruct (m w) as [[a|e] w'] eqn:E; intros H.
  - right. by exists a, w'.
  - left. inversion H; subst. by exists e.
Qed.

Lemma store_file_frame syscall p content w r w' :
  Fs.store_file syscall p content w = (r, w') →
  (∀ q, q ≠ p → Fs.lookup_node (files w') q = Fs.lookup_node (files w) q)
  ∧ (∀ e, r = Err e → files w' = files w).
Proof.
  unfold Fs.store_file. intros H.
  destruct (Fs.lookup_node (files w) p) as [[c|]|];
    destruct (Fs.lookup_node (files w) (Path.dirname p)) as [[c'|]|];
    inversion H; subst; simpl; split; try done;
    intros q Hq; by apply lookup_node_insert_ne.
Qed.

Lemma unlink_frame p w r w' :
  Fs.unlink p w = (r, w') →
  (∀ q, q ≠ p → Fs.lookup_node (files w') q = Fs.lookup_node (files w) q)
  ∧ (∀ e, r = Err e → files w' = files w).
Proof.
  unfold Fs.unlink. simpl. intros H.
  destruct (Fs.lookup_node (files w) p) as [[c|]|];
    inversion H; subst; simpl; split; try done.
  intros q Hq. by apply lookup_node_delete_ne.
Qed.

Lemma unlink_file p w content :
  Fs.lookup_node (files w) p = Some (File content) →
  Fs.unlink p w
  = (Ok (), Fs.set_files (base.delete p (files w)) (Fs.log (OpUnlink p) w)).
Proof. intros H. unfold Fs.unlink. simpl. by rewrite H. Qed.

Lemma lookup_node_mkdirs_file fs l q x :
  Fs.lookup_node (foldr (λ a m, <[a:=Dir]> m) fs l) q = Some (File x) →
  Fs.lookup_node fs q = Some (File x).
Proof.
  intros H. destruct (decide (q ∈ l)) as [Hin|Hout].
  - by rewrite lookup_node_mkdirs_in in H.
  - by rewrite lookup_node_mkdirs in H.
Qed.

Lemma mkdirp_frame p w r w' :
  Fs.mkdirp p w = (r, w') →
  (∀ q x, Fs.lookup_node (files w) q = Some (File x) →
          Fs.lookup_node (files w') q = Some (File x))
  ∧ (∀ q x, Fs.lookup_node (files w') q = Some (File x) →
            Fs.lookup_node (files w) q = Some (File x))
  ∧ (∀ e, r = Err e → files w' = files w)
  ∧ (r = Ok () → ∀ q, q ∈ Fs.ancestors p →
       Fs.lookup_node (files w') q = Some Dir).
Proof.
  unfold Fs.mkdirp. simpl. intros H.
  destruct (Fs.is_file (files w) p); [by inversion H; subst|].
  destruct (existsb (Fs.is_file (files w)) (Fs.ancestors p)) eqn:Ex;
    [by inversion H; subst|].
  inversion H; subst; simpl. split; [|split; [|split]].
  - intros q x Hq. rewrite lookup_node_mkdirs; [done|].
    intros Hin. apply list_elem_of_In in Hin.
    assert (existsb (Fs.is_file (files w)) (Fs.ancestors p) = true);
      [|congruence].
    apply existsb_exists. exists q. split; [done|].
    unfold Fs.is_file. by rewrite Hq.
  - intros q x. apply lookup_node_mkdirs_file.
  - done.
  - intros _ q Hq. by apply lookup_node_mkdirs_in.
Qed.

Lemma writeChunk_frame p chunk w r w' :
  Fs.writeChunk p chunk w = (r, w') →
  ∀ q, q ≠ p → Fs.lookup_node (files w') q = Fs.lookup_node (files w) q.
Proof.
  unfold Fs.writeChunk. simpl. intros H q Hq.
  destruct (Fs.lookup_node (files w) p) as [[c|]|];
    inversion H; subst; simpl; try done.
  by apply lookup_node_insert_ne.
Qed.

Lemma pump_frame tmpFile chunks hash byteCount w r w' :
  pump tmpFile chunks hash byteCount w = (r, w') →
  ∀ q, q ≠ tmpFile →
    Fs.lookup_node (files w') q = Fs.lookup_node (files w) q.
Proof.
  revert hash byteCount w.
  induction chunks as [|c chunks IH]; intros hash byteCount w H q Hq.
  - by inversion H.
  - simpl in H. apply bind_inv in H as [(e & Hw & _)|([] & w1 & Hw & H)].
    + by apply (writeChunk_frame _ _ _ _ _ Hw).
    + rewrite (IH _ _ _ H q Hq). by apply (writeChunk_frame _ _ _ _ _ Hw).
Qed.

(** Once the staging file is open, the pipe runs to its end. *)
Lemma pump_runs tmpFile chunks hash byteCount w content :
  Fs.lookup_node (files w) tmpFile = Some (File content) →
  ∃ w', pump tmpFile chunks hash byteCount w
        = (Ok (Crypto.update hash (concat chunks),
               byteCount + Z.of_nat (length (concat chunks))), w').
Proof.
  revert hash byteCount w content.
  induction chunks as [|c chunks IH]; intros hash byteCount w content Hf.
  - exists w. simpl. unfold ret. by rewrite Z.add_0_r.
  - simpl pump.
    assert (Hw : Fs.writeChunk tmpFile c w
      = (Ok (), Fs.set_files (<[tmpFile:=File (content ++ c)]> (files w))
                  (Fs.log (OpWriteChunk tmpFile c) w))).
    { unfold Fs.writeChunk. simpl. by rewrite Hf. }
    rewrite (bind_ok _ _ _ _ _ Hw).
    destruct (IH (Crypto.update hash c) (byteCount + Z.of_nat (length c))
                (Fs.set_files (<[tmpFile:=File (content ++ c)]> (files w))
                   (Fs.log (OpWriteChunk tmpFile c) w)) (content ++ c))
      as (w' & Hp).
    { simpl. apply lookup_node_insert, (lookup_node_not_root (files w)).
      by rewrite Hf. }
    exists w'. rewrite Hp. simpl concat.
    rewrite update_app, length_app. do 3 f_equal. lia.
Qed.

Lemma store_file_ok_not_dir syscall p content w w' :
  Fs.store_file syscall p content w = (Ok (), w') →
  Fs.lookup_node (files w) p ≠ Some Dir.
Proof. unfold Fs.store_file. intros H E. by rewrite E in H. Qed.

(** ** Every outcome of a buffer put *)

Lemma put_buffer_cases self uuid b w r w1 :
  put self uuid (Buffer b) w = (r, w1) →
  let md5 := Crypto.md5_hex b in
  let filepath := getFilepath self md5 in
  (is_Some (Fs.lookup_node (files w) filepath)
   ∧ r = Ok (Md5String md5) ∧ files w1 = files w)
  ∨ (Fs.lookup_node (files w) filepath = None
     ∧ (∀ q x, Fs.lookup_node (files w) q = Some (File x) →
               Fs.lookup_node (files w1) q = Some (File x))
     ∧ (∀ q x, Fs.lookup_node (files w1) q = Some (File x) →
               q = filepath ∨ Fs.lookup_node (files w) q = Some (File x))
     ∧ ((∃ e, r = Err e
              ∧ ∀ x, Fs.lookup_node (files w1) filepath ≠ Some (File x))
        ∨ (r = Ok (Md5Object md5 (Z.of_nat (length b)))
           ∧ Fs.lookup_node (files w1) filepath = Some (File b)
           ∧ ∀ q, q ∈ Fs.ancestors (getDirpath self md5) →
                  Fs.lookup_node (files w1) q = Some Dir))).
Proof.
  intros H. cbv zeta. unfold put in H.
  change (Crypto.digest_hex (Crypto.update Crypto.createHash b))
    with (Crypto.md5_hex b) in H.
  set (fp := getFilepath self (Crypto.md5_hex b)) in *.
  set (dp := getDirpath self (Crypto.md5_hex b)) in *.
  unfold bind at 1 in H. rewrite existsP_run in H.
  destruct (bool_decide _) eqn:Ex.
  { left. apply bool_decide_eq_true in Ex. inversion H; subst. by repeat split. }
  right. apply bool_decide_eq_false in Ex.
  assert (Hnone : Fs.lookup_node (files w) fp = None).
  { destruct (Fs.lookup_node (files w) fp) eqn:E; [|done].
    destruct Ex. by eexists. }
  split; [done|].
  apply bind_inv in H as [(e & HB & ->)|([] & wB & HB & H)].
  - apply mkdirp_frame in HB as (_ & _ & Hsame & _).
    specialize (Hsame e eq_refl). simpl in Hsame. rewrite Hsame.
    split; [done|]. split; [by right|]. left. exists e. split; [done|].
    intros x. by rewrite Hnone.
  - apply mkdirp_frame in HB as (Hkeep & Hnew & _ & Hdirs). simpl in *.
    specialize (Hdirs eq_refl).
    apply bind_inv in H as [(e & HC & ->)|([] & wC & HC & H)].
    + unfold Fs.writeFile in HC.
      apply store_file_frame in HC as (_ & Hsame).
      specialize (Hsame e eq_refl). simpl in Hsame. rewrite Hsame.
      split; [done|]. split; [intros q x Hq; right; by eapply Hnew|].
      left. exists e. split; [done|]. intros x Hx.
      apply Hnew in Hx. by rewrite Hnone in Hx.
    + inversion H; subst r wC. clear H. unfold Fs.writeFile in HC.
      pose proof (store_file_ok_not_dir _ _ _ _ _ HC) as Hnd.
      pose proof (store_file_frame _ _ _ _ _ _ HC) as (Hfr & _).
      apply store_file_ok in HC as (Hfp & _ & _). simpl in *.
      split; [|split].
      * intros q x Hq. destruct (decide (q = fp)) as [->|Hne].
        { by rewrite Hnone in Hq. }
        rewrite Hfr by done. by apply Hkeep.
      * intros q x Hq. destruct (decide (q = fp)) as [->|Hne]; [by left|].
        right. rewrite Hfr in Hq by done. by eapply Hnew.
      * right. split; [done|]. split; [done|].
        intros q Hq. specialize (Hdirs q Hq).
        destruct (decide (q = fp)) as [->|Hne]; [done|].
        by rewrite Hfr.
Qed.

(** X1: once a buffer put has resolved, [has] of the digest it resolved
    with resolves with [true]; and the shape of the value tells what [has]
    said before the put: the object when the blob was absent, the bare
    digest when a node was already there. *)
Theorem put_then_has (self : FsBlobStorage) (uuid : string)
    (b : list byte) (w w1 : world) (r : put_value) :
  put self uuid (Buffer b) w = (Ok r, w1) →
  (has self (md5_of r) w1).1 = Ok true
  ∧ ((has self (md5_of r) w).1 = Ok false →
     r = Md5Object (Crypto.md5_hex b) (Z.of_nat (length b)))
  ∧ ((has self (md5_of r) w).1 = Ok true → r = Md5String (Crypto.md5_hex b)).
Proof.
  intros H. unfold has. rewrite !existsP_run. cbn [fst].
  apply put_buffer_cases in H
    as [(Hsome & Hr & Hfiles)|(Hnone & _ & _ & [(e & Hr & _)|(Hr & Hfp & _)])];
    inversion Hr; subst r; cbn [md5_of].
  - rewrite Hfiles, !bool_decide_eq_true_2 by done. by repeat split.
  - rewrite Hfp, Hnone.
    rewrite bool_decide_eq_true_2 by (by eexists).
    rewrite bool_decide_eq_false_2 by (by intros [? ?]). by repeat split.
Qed.

Lemma put_then_has_witness :
  (has example_store "900150983cd24fb0d6963f7d28e17f72"
     (put example_store "u1" (Buffer (bytes_of "abc")) empty_world).2).1
  = Ok true.
Proof.
  destruct (put_then_has example_store "u1" (bytes_of "abc") empty_world
              (put example_store "u1" (Buffer (bytes_of "abc")) empty_world).2
              (Md5Object "900150983cd24fb0d6963f7d28e17f72" 3)) as (H & _).
  - vm_compute. reflexivity.
  - exact H.
Defined.

(** X2: a buffer put repeated after one that resolved is a no-op: it
    resolves with the same digest, makes the existence check and no other
    call, and leaves every file as it was. *)
Theorem put_repeated_is_noop (self : FsBlobStorage) (uuid uuid' : string)
    (b : list byte) (w w1 : world) (r : put_value) :
  put self uuid (Buffer b) w = (Ok r, w1) →
  put self uuid' (Buffer b) w1
  = (Ok (Md5String (md5_of r)),
     Fs.log (OpExists (getFilepath self (md5_of r))) w1).
Proof.
  intros H.
  assert (Hr : md5_of r = Crypto.md5_hex b
               ∧ is_Some (Fs.lookup_node (files w1)
                            (getFilepath self (Crypto.md5_hex b)))).
  { apply put_buffer_cases in H
      as [(Hsome & Hr & Hfiles)
         |(Hnone & _ & _ & [(e & Hr & _)|(Hr & Hfp & _)])];
      inversion Hr; subst r; cbn [md5_of]; (split; [done|]).
    - by rewrite Hfiles.
    - rewrite Hfp. by eexists. }
  destruct Hr as [-> Hsome]. by apply put_buffer_existing.
Qed.

Lemma put_repeated_is_noop_witness :
  let w1 := (put example_store "u1" (Buffer (bytes_of "abc")) empty_world).2 in
  put example_store "u2" (Buffer (bytes_of "abc")) w1
  = (Ok (Md5String "900150983cd24fb0d6963f7d28e17f72"),
     Fs.log (OpExists (getFilepath example_store
                         "900150983cd24fb0d6963f7d28e17f72")) w1).
Proof.
  cbv zeta.
  apply (put_repeated_is_noop example_store "u1" "u2" (bytes_of "abc")
           empty_world _ (Md5Object "900150983cd24fb0d6963f7d28e17f72" 3)).
  vm_compute. reflexivity.
Defined.

(** X4: when a buffer put is rejected, no regular file has appeared at the
    shard path, and no regular file has appeared anywhere else either. *)
Theorem put_rejected_stores_nothing (self : FsBlobStorage) (uuid : string)
    (b : list byte) (w w1 : world) (e : error) :
  put self uuid (Buffer b) w = (Err e, w1) →
  Fs.lookup_node (files w) (getFilepath self (Crypto.md5_hex b)) = None
  ∧ ∀ q x, Fs.lookup_node (files w1) q = Some (File x) →
           Fs.lookup_node (files w) q = Some (File x).
Proof.
  intros H.
  apply put_buffer_cases in H
    as [(_ & Hr & _)|(Hnone & _ & Hnew & [(e' & _ & Hfp)|(Hr & _)])];
    [done| |done].
  split; [done|]. intros q x Hq.
  destruct (Hnew q x Hq) as [->|Hw]; [|done]. by destruct (Hfp x).
Qed.

Lemma put_rejected_stores_nothing_witness :
  let blocked := mkWorld {["root" := File []]} [] in
  Fs.lookup_node
    (files (put example_store "u1" (Buffer (bytes_of "abc")) blocked).2)
    "root/90/01/50/900150983cd24fb0d6963f7d28e17f72"
  ≠ Some (File (bytes_of "abc")).
Proof.
  cbv zeta.
  destruct (put_rejected_stores_nothing example_store "u1" (bytes_of "abc")
              (mkWorld {["root" := File []]} [])
              (put example_store "u1" (Buffer (bytes_of "abc"))
                 (mkWorld {["root" := File []]} [])).2
              (SystemError ENOTDIR "mkdir" "root/90/01/50")) as (_ & H).
  - vm_compute. reflexivity.
  - intros E. apply H in E. vm_compute in E. discriminate.
Defined.

(** ** Every outcome of a streamed put *)

Lemma putStream_cases self uuid chunks w r w1 :
  putStream self uuid chunks w = (r, w1) →
  let tmpFile := tmpFilename self uuid in
  let md5 := Crypto.md5_hex (concat chunks) in
  let filepath := getFilepath self md5 in
  let value := Md5Object md5 (Z.of_nat (length (concat chunks))) in
  (is_Some (Fs.lookup_node (files w) tmpFile)
   ∧ r = Err (Error "File already exists") ∧ files w1 = files w)
  ∨ (Fs.lookup_node (files w) tmpFile = None
     ∧ ((∃ e, r = Err e ∧ files w1 = files w)
        ∨ ((is_Some (Fs.lookup_node (files w) filepath) ∨ filepath = tmpFile)
           ∧ r = Ok value
           ∧ Fs.lookup_node (files w1) tmpFile = None
           ∧ ∀ q, q ≠ tmpFile →
                  Fs.lookup_node (files w1) q = Fs.lookup_node (files w) q)
        ∨ (Fs.lookup_node (files w) filepath = None
           ∧ filepath ≠ tmpFile
           ∧ (∀ q x, Fs.lookup_node (files w) q = Some (File x) →
                     Fs.lookup_node (files w1) q = Some (File x))
           ∧ (∀ q x, Fs.lookup_node (files w1) q = Some (File x) →
                     q = filepath ∨ q = tmpFile
                     ∨ Fs.lookup_node (files w) q = Some (File x))
           ∧ ((∃ e, r = Err e
                    ∧ Fs.lookup_node (files w1) tmpFile
                      = Some (File (concat chunks))
                    ∧ ∀ x, Fs.lookup_node (files w1) filepath
                           ≠ Some (File x))
              ∨ (r = Ok value
                 ∧ Fs.lookup_node (files w1) tmpFile = None
                 ∧ Fs.lookup_node (files w1) filepath
                   = Some (File (concat chunks))))))).
Proof.
  intros H. cbv zeta. unfold putStream in H.
  set (tmp := tmpFilename self uuid) in *.
  unfold bind at 1 in H. rewrite existsP_run in H.
  destruct (bool_decide _) eqn:Ex.
  { left. apply bool_decide_eq_true in Ex. inversion H; subst. by repeat split. }
  right. apply bool_decide_eq_false in Ex.
  assert (Htmp0 : Fs.lookup_node (files w) tmp = None).
  { destruct (Fs.lookup_node (files w) tmp) eqn:E; [|done].
    destruct Ex. by eexists. }
  split; [done|].
  apply bind_inv in H as [(e & HB & ->)|([] & wB & HB & H)].
  { left. exists e. split; [done|]. unfold Fs.createWriteStream in HB.
    apply store_file_frame in HB as (_ & Hsame). by apply (Hsame e). }
  unfold Fs.createWriteStream in HB.
  pose proof (store_file_frame _ _ _ _ _ _ HB) as (HfrB & _).
  apply store_file_ok in HB as (HtmpB & _ & _). simpl in HfrB.
  destruct (pump_runs tmp chunks Crypto.createHash 0 wB [] HtmpB)
    as (wC & Hpump).
  rewrite (bind_ok _ _ _ _ _ Hpump) in H.
  pose proof (pump_frame _ _ _ _ _ _ _ Hpump) as HfrC.
  apply pump_ok in Hpump as (_ & _ & _ & HtmpC).
  specialize (HtmpC _ HtmpB). rewrite app_nil_l in HtmpC.
  cbn [fst snd] in H. rewrite Z.add_0_l in H.
  change (Crypto.digest_hex (Crypto.update Crypto.createHash (concat chunks)))
    with (Crypto.md5_hex (concat chunks)) in H.
  set (fp := getFilepath self (Crypto.md5_hex (concat chunks))) in *.
  assert (Hsame : ∀ q, q ≠ tmp →
            Fs.lookup_node (files wC) q = Fs.lookup_node (files w) q).
  { intros q Hq. rewrite HfrC, HfrB by done. done. }
  assert (Hntmp : ∀ q x, Fs.lookup_node (files w) q = Some (File x) → q ≠ tmp).
  { intros q x Hq ->. by rewrite Htmp0 in Hq. }
  assert (Hroot : Fs.is_root tmp = false).
  { apply (lookup_node_not_root (files wC)). by rewrite HtmpC. }
  unfold bind at 1 in H. rewrite existsP_run in H.
  destruct (bool_decide _) eqn:Ex2.
  - apply bool_decide_eq_true in Ex2. right. left.
    assert (Hun : Fs.unlink tmp (Fs.log (OpExists fp) wC)
              = (Ok (), Fs.set_files (base.delete tmp (files wC))
                          (Fs.log (OpUnlink tmp) (Fs.log (OpExists fp) wC))))
      by exact (unlink_file tmp (Fs.log (OpExists fp) wC) (concat chunks)
                  HtmpC).
    rewrite (bind_ok _ _ _ _ _ Hun) in H. inversion H; subst r w1. simpl.
    split; [|split; [done|split]].
    + destruct (decide (fp = tmp)) as [E|Hne]; [by right|].
      left. by rewrite <- Hsame.
    + by apply lookup_node_delete.
    + intros q Hq. rewrite lookup_node_delete_ne by done. by apply Hsame.
  - apply bool_decide_eq_false in Ex2. right. right.
    assert (HfpC : Fs.lookup_node (files wC) fp = None).
    { destruct (Fs.lookup_node (files wC) fp) eqn:E; [|done].
      destruct Ex2. by eexists. }
    assert (Hne : fp ≠ tmp).
    { intros E. rewrite E in HfpC. by rewrite HfpC in HtmpC. }
    split; [by rewrite <- Hsame|]. split; [done|].
    apply bind_inv in H as [(e & HE & ->)|([] & wE & HE & H)];
      [|inversion H; subst r wE; clear H];
      apply bind_inv in HE as [(e' & HF & He)|([] & wF & HF & HE)].
    + (* the shard directory cannot be made *)
      inversion He; subst e'.
      apply mkdirp_frame in HF as (_ & _ & Hfiles & _).
      specialize (Hfiles e eq_refl). simpl in Hfiles. rewrite Hfiles.
      split; [|split].
      * intros q x Hq. rewrite Hsame; [done|by eapply Hntmp].
      * intros q x Hq. destruct (decide (q = tmp)) as [->|Hq']; [by auto|].
        right. right. by rewrite <- Hsame.
      * left. exists e. repeat split; [done|]. intros x. by rewrite HfpC.
    + (* the copy fails *)
      apply mkdirp_frame in HF as (Hkeep & Hnew & _ & _). simpl in *.
      pose proof (Hkeep _ _ HtmpC) as HtmpF.
      apply bind_inv in HE as [(e' & HG & He)|([] & wG & HG & HE)].
      2: { rewrite (unlink_file tmp wG (concat chunks)) in HE; [done|].
           unfold Fs.copyFile in HG. simpl in HG. rewrite HtmpF in HG.
           apply store_file_frame in HG as (HfrG & _). simpl in HfrG.
           rewrite HfrG by done. exact HtmpF. }
      inversion He; subst e'.
      unfold Fs.copyFile in HG. simpl in HG. rewrite HtmpF in HG.
      apply store_file_frame in HG as (_ & Hfiles).
      specialize (Hfiles e eq_refl). simpl in Hfiles. rewrite Hfiles.
      split; [|split].
      * intros q x Hq. apply Hkeep. rewrite Hsame; [done|by eapply Hntmp].
      * intros q x Hq. apply Hnew in Hq.
        destruct (decide (q = tmp)) as [->|Hq']; [by auto|].
        right. right. by rewrite <- Hsame.
      * left. exists e. repeat split; [done|]. intros x Hx.
        apply Hnew in Hx. by rewrite HfpC in Hx.
    + done.
    + (* the blob is published *)
      apply mkdirp_frame in HF as (Hkeep & Hnew & _ & _). simpl in *.
      pose proof (Hkeep _ _ HtmpC) as HtmpF.
      apply bind_inv in HE as [(e' & HG & He)|([] & wG & HG & HE)]; [done|].
      unfold Fs.copyFile in HG. simpl in HG. rewrite HtmpF in HG.
      pose proof (store_file_frame _ _ _ _ _ _ HG) as (HfrG & _).
      apply store_file_ok in HG as (HfpG & _ & _). simpl in HfrG.
      pose proof (unlink_frame _ _ _ _ HE) as (HfrE & _).
      apply unlink_ok in HE as (Hgone & _ & _ & _).
      split; [|split].
      * intros q x Hq. pose proof (Hntmp _ _ Hq) as Hq1.
        assert (Hq2 : q ≠ fp).
        { intros ->. rewrite <- Hsame in Hq by done. by rewrite HfpC in Hq. }
        rewrite HfrE, HfrG by done. apply Hkeep. by rewrite Hsame.
      * intros q x Hq.
        destruct (decide (q = fp)) as [->|Hq2]; [by left|].
        destruct (decide (q = tmp)) as [->|Hq1]; [by auto|].
        right. right. rewrite HfrE, HfrG in Hq by done.
        apply Hnew in Hq. by rewrite <- Hsame.
      * right. split; [done|]. split; [done|].
        rewrite HfrE by done. exact HfpG.
Qed.

(** ** What puts leave alone *)

(** X3: a put, of a buffer or of a stream, whether it resolves or is
    rejected, never changes or removes a regular file that was there. *)
Theorem put_keeps_existing_files (self : FsBlobStorage) (uuid : string)
    (c : content) (w w1 : world) (r : result put_value)
    (q : string) (x : list byte) :
  put self uuid c w = (r, w1) →
  Fs.lookup_node (files w) q = Some (File x) →
  Fs.lookup_node (files w1) q = Some (File x).
Proof.
  intros H Hq. destruct c as [b|chunks].
  - apply put_buffer_cases in H
      as [(_ & _ & Hfiles)|(_ & Hkeep & _)]; [by rewrite Hfiles|by apply Hkeep].
  - simpl in H. apply putStream_cases in H
      as [(_ & _ & Hfiles)
         |(Htmp & [(e & _ & Hfiles)|[(_ & _ & _ & Hsame)|(_ & _ & Hkeep & _)]])].
    + by rewrite Hfiles.
    + by rewrite Hfiles.
    + rewrite Hsame; [done|]. intros ->. by rewrite Htmp in Hq.
    + by apply Hkeep.
Qed.

Lemma put_keeps_existing_files_witness :
  let w := mkWorld {["/tmp" := Dir; "root/old" := File (bytes_of "x")]} [] in
  Fs.lookup_node
    (files (put example_store "u1" (Readable [bytes_of "abc"]) w).2)
    "root/old"
  = Some (File (bytes_of "x")).
Proof.
  cbv zeta.
  apply (put_keeps_existing_files example_store "u1"
           (Readable [bytes_of "abc"])
           (mkWorld {["/tmp" := Dir; "root/old" := File (bytes_of "x")]} [])
           _ (put example_store "u1" (Readable [bytes_of "abc"])
                (mkWorld {["/tmp" := Dir; "root/old" := File (bytes_of "x")]}
                   [])).1).
  - by destruct (put example_store "u1" (Readable [bytes_of "abc"]) _).
  - vm_compute. reflexivity.
Defined.

(** X5: a buffer put resolves with the object, and leaves the buffer at
    the shard path, whenever the shard path is free and no regular file
    lies on the chain of directories leading to the shard directory (for a
    store with one to sixteen levels). *)
Theorem put_resolves_on_free_chain (self : FsBlobStorage) (uuid : string)
    (b : list byte) (w : world) :
  (1 ≤ depth self ≤ 16)%nat →
  Fs.lookup_node (files w) (getFilepath self (Crypto.md5_hex b)) = None →
  (∀ q, q ∈ Fs.ancestors (getDirpath self (Crypto.md5_hex b)) →
        Fs.is_file (files w) q = false) →
  ∃ w1,
    put self uuid (Buffer b) w
    = (Ok (Md5Object (Crypto.md5_hex b) (Z.of_nat (length b))), w1)
    ∧ Fs.lookup_node (files w1) (getFilepath self (Crypto.md5_hex b))
      = Some (File b).
Proof. apply put_buffer_fresh. Qed.

Lemma put_resolves_on_free_chain_witness :
  ∃ w1,
    put example_store "u1" (Buffer (bytes_of "abc")) tmp_world
    = (Ok (Md5Object (Crypto.md5_hex (bytes_of "abc")) 3), w1)
    ∧ Fs.lookup_node (files w1)
        (getFilepath example_store (Crypto.md5_hex (bytes_of "abc")))
      = Some (File (bytes_of "abc")).
Proof.
  apply (put_resolves_on_free_chain example_store "u1" (bytes_of "abc")
           tmp_world).
  - vm_compute. split; lia.
  - vm_compute. reflexivity.
  - intros q Hq. vm_compute in Hq.
    repeat (apply elem_of_cons in Hq as [->|Hq]; [vm_compute; reflexivity|]).
    by apply elem_of_nil in Hq.
Defined.

(** ** Deleting *)

(** X6: [delete] resolves exactly when a regular file sits at the shard
    path; it then empties that path and leaves every other path, the shard
    directories included, as it was.  On a directory it is rejected with
    [EISDIR] and nothing changes. *)
Theorem delete_removes_only_the_blob (self : FsBlobStorage) (id : string)
    (w : world) :
  let filepath := getFilepath self id in
  ((delete self id w).1 = Ok ()
   ↔ ∃ x, Fs.lookup_node (files w) filepath = Some (File x))
  ∧ ((delete self id w).1 = Ok () →
     Fs.lookup_node (files (delete self id w).2) filepath = None
     ∧ ∀ q, q ≠ filepath →
            Fs.lookup_node (files (delete self id w).2) q
            = Fs.lookup_node (files w) q)
  ∧ (Fs.lookup_node (files w) filepath = Some Dir →
     delete self id w
     = (Err (SystemError EISDIR "unlink" filepath),
        Fs.log (OpUnlink filepath) w)).
Proof.
  cbv zeta. unfold delete.
  destruct (Fs.unlink (getFilepath self id) w) as [[[]|e] w1] eqn:E;
    cbn [fst snd].
  - pose proof (unlink_frame _ _ _ _ E) as (Hfr & _).
    apply unlink_ok in E as (Hgone & _ & _ & x & Hx).
    split; [split; [by eauto|done]|]. split; [by split|].
    intros Hd. by rewrite Hd in Hx.
  - split; [split; [done|]|split; [done|]].
    + intros (x & Hx). by rewrite (unlink_file _ _ _ Hx) in E.
    + intros Hd. unfold Fs.unlink in E. simpl in E. rewrite Hd in E.
      by inversion E.
Qed.



(** X8: a blob can be stored again after it was deleted: when a put on a
    free shard path resolved and the blob was then deleted, putting the
    same buffer once more resolves with the object and the blob is back. *)
Theorem put_delete_put (self : FsBlobStorage) (uuid uuid' : string)
    (b : list byte) (w w1 w2 : world) (r : put_value) :
  (1 ≤ depth self ≤ 16)%nat →
  Fs.lookup_node (files w) (getFilepath self (Crypto.md5_hex b)) = None →
  put self uuid (Buffer b) w = (Ok r, w1) →
  delete self (md5_of r) w1 = (Ok (), w2) →
  ∃ w3,
    put self uuid' (Buffer b) w2
    = (Ok (Md5Object (Crypto.md5_hex b) (Z.of_nat (length b))), w3)
    ∧ Fs.lookup_node (files w3) (getFilepath self (Crypto.md5_hex b))
      = Some (File b).
Proof.
  intros Hdepth Hfree Hput Hdel.
  apply put_buffer_cases in Hput
    as [(Hsome & _)|(_ & _ & _ & [(e & Hr & _)|(Hr & Hfp & Hdirs)])].
  - rewrite Hfree in Hsome. by destruct Hsome.
  - done.
  - inversion Hr; subst r. cbn [md5_of] in Hdel. unfold delete in Hdel.
    pose proof (unlink_frame _ _ _ _ Hdel) as (Hfr & _).
    apply unlink_ok in Hdel as (Hgone & _).
    apply put_buffer_fresh; [done|done|].
    intros q Hq. specialize (Hdirs q Hq). unfold Fs.is_file.
    rewrite Hfr, Hdirs; [done|]. intros ->. by rewrite Hfp in Hdirs.
Qed.

Lemma put_delete_put_witness :
  let id := "900150983cd24fb0d6963f7d28e17f72" in
  let w1 := (put example_store "u1" (Buffer (bytes_of "abc"))
               empty_world).2 in
  let w2 := (delete example_store id w1).2 in
  ∃ w3,
    put example_store "u2" (Buffer (bytes_of "abc")) w2
    = (Ok (Md5Object (Crypto.md5_hex (bytes_of "abc")) 3), w3)
    ∧ Fs.lookup_node (files w3)
        (getFilepath example_store (Crypto.md5_hex (bytes_of "abc")))
      = Some (File (bytes_of "abc")).
Proof.
  cbv zeta.
  apply (put_delete_put example_store "u1" "u2" (bytes_of "abc") empty_world
           (put example_store "u1" (Buffer (bytes_of "abc")) empty_world).2
           _ (Md5Object "900150983cd24fb0d6963f7d28e17f72" 3)).
  - vm_compute. split; lia.
  - vm_compute. reflexivity.
  - vm_compute. reflexivity.
  - vm_compute. reflexivity.
Defined.

Lemma delete_removes_only_the_blob_witness :
  let stored := (put example_store "u1" (Buffer (bytes_of "abc"))
                   empty_world).2 in
  let id := "900150983cd24fb0d6963f7d28e17f72" in
  Fs.lookup_node (files (delete example_store id stored).2)
    (getFilepath example_store id) = None
  ∧ Fs.lookup_node (files (delete example_store id stored).2) "root/90/01/50"
    = Some Dir.
Proof.
  cbv zeta.
  destruct (delete_removes_only_the_blob example_store
              "900150983cd24fb0d6963f7d28e17f72"
              (put example_store "u1" (Buffer (bytes_of "abc"))
                 empty_world).2) as (_ & H & _).
  destruct H as (Hgone & Hothers); [vm_compute; reflexivity|].
  split; [exact Hgone|].
  rewrite Hothers; [vm_compute; reflexivity|vm_compute; discriminate].
Defined.

(** ** Reading *)

(** X10: the reading operations never change what is on disk, whatever
    they are asked and however they settle. *)
Theorem readers_change_nothing (getRangeLength : Z * Z → Z)
    (self : FsBlobStorage) (id : string) (w : world) :
  files (has self id w).2 = files w
  ∧ (∀ range, files (get getRangeLength self id range w).2 = files w)
  ∧ (∀ range, files (getStream self id range w).2 = files w)
  ∧ files (getStat self id w).2 = files w.
Proof.
  split; [done|]. split; [|split].
  - intros range. unfold get, lift, Buffer_alloc, bind.
    destruct (getRangeLength range <? 0); [done|].
    rewrite existsP_run. destruct (bool_decide _); [|done].
    unfold Fs.open, Fs.read, Fs.close. simpl.
    destruct (Fs.lookup_node (files w) (getFilepath self id)) as [[x|]|]
      eqn:E; simpl; rewrite ?E; done.
  - intros range. unfold getStream, bind. rewrite existsP_run.
    by destruct (bool_decide _).
  - unfold getStat, Fs.stat. simpl.
    by destruct (Fs.lookup_node (files w) (getFilepath self id)) as [[x|]|].
Qed.



(** X12: a range of negative length makes [get] throw a [RangeError]
    before any call reaches the file system, whether the blob is stored or
    not. *)
Theorem get_negative_length_throws_first (getRangeLength : Z * Z → Z)
    (self : FsBlobStorage) (id : string) (range : Z * Z) (w : world) :
  getRangeLength range < 0 →
  ∃ message,
    get getRangeLength self id range w = (Err (RangeError message), w).
Proof.
  intros Hneg. unfold get, lift, Buffer_alloc, bind.
  destruct (Z.ltb_spec (getRangeLength range) 0) as [_|?]; [|lia].
  by eexists.
Qed.

Lemma get_negative_length_throws_first_witness :
  ∃ message,
    get (λ r, r.2 - r.1) example_store "900150983cd24fb0d6963f7d28e17f72"
      (3, 1) empty_world
    = (Err (RangeError message), empty_world).
Proof.
  apply (get_negative_length_throws_first (λ r, r.2 - r.1)).
  vm_compute. reflexivity.
Defined.

(** X9: [getStat] of a missing blob is rejected with [ENOENT]; after a
    buffer put that resolved on a shard path that was free or already held
    the buffer, it reports a regular file whose size is the length of the
    buffer. *)
Theorem getStat_reports_stored_size (self : FsBlobStorage) (uuid : string)
    (b : list byte) (w w1 : world) (r : put_value) :
  put self uuid (Buffer b) w = (Ok r, w1) →
  Fs.lookup_node (files w) (getFilepath self (Crypto.md5_hex b)) = None
  ∨ Fs.lookup_node (files w) (getFilepath self (Crypto.md5_hex b))
    = Some (File b) →
  (getStat self (md5_of r) w1).1 = Ok (false, Z.of_nat (length b))
  ∧ (Fs.lookup_node (files w) (getFilepath self (Crypto.md5_hex b)) = None →
     (getStat self (md5_of r) w).1
     = Err (SystemError ENOENT "stat" (getFilepath self (md5_of r)))).
Proof.
  intros H Htrust.
  assert (Hr : md5_of r = Crypto.md5_hex b
    ∧ Fs.lookup_node (files w1) (getFilepath self (Crypto.md5_hex b))
      = Some (File b)).
  { apply put_buffer_cases in H
      as [(Hsome & Hr & Hfiles)
         |(Hnone & _ & _ & [(e & Hr & _)|(Hr & Hfp & _)])];
      inversion Hr; subst r; cbn [md5_of]; (split; [done|]); [|done].
    rewrite Hfiles. destruct Htrust as [Hn|Hb]; [|done].
    rewrite Hn in Hsome. by destruct Hsome. }
  destruct Hr as [-> Hfile]. unfold getStat, Fs.stat. simpl.
  rewrite Hfile. split; [done|]. by intros ->.
Qed.

Lemma getStat_reports_stored_size_witness :
  (getStat example_store "900150983cd24fb0d6963f7d28e17f72"
     (put example_store "u1" (Buffer (bytes_of "abc")) empty_world).2).1
  = Ok (false, 3).
Proof.
  destruct (getStat_reports_stored_size example_store "u1" (bytes_of "abc")
              empty_world
              (put example_store "u1" (Buffer (bytes_of "abc")) empty_world).2
              (Md5Object "900150983cd24fb0d6963f7d28e17f72" 3)) as (H & _).
  - vm_compute. reflexivity.
  - left. vm_compute. reflexivity.
  - exact H.
Defined.

Lemma get_whole_file (getRangeLength : Z * Z → Z) self id w x :
  Fs.lookup_node (files w) (getFilepath self id) = Some (File x) →
  getRangeLength (0, Z.of_nat (length x)) = Z.of_nat (length x) →
  (get getRangeLength self id (0, Z.of_nat (length x)) w).1 = Ok x.
Proof.
  intros Hfile Hlen.
  rewrite (get_file getRangeLength self id _ w x Hfile) by lia.
  cbn [fst snd]. rewrite Hlen. change (Z.to_nat 0) with 0%nat.
  rewrite drop_0, Nat2Z.id, firstn_all. f_equal.
  rewrite drop_ge, app_nil_r; [done|]. by rewrite repeat_length.
Qed.

(** ** Streamed puts *)

(** X13: a streamed put that resolved on a free shard path (the staging
    path being another path) has stored the stream: the shard path holds
    the concatenation of the chunks, [has] resolves with [true], and [get]
    over the whole length, with a half-open range length, hands the bytes
    back. *)
Theorem putStream_stores_the_stream (getRangeLength : Z * Z → Z)
    (self : FsBlobStorage) (uuid : string) (chunks : list (list byte))
    (w w1 : world) (r : put_value) :
  putStream self uuid chunks w = (Ok r, w1) →
  Fs.lookup_node (files w)
    (getFilepath self (Crypto.md5_hex (concat chunks))) = None →
  getFilepath self (Crypto.md5_hex (concat chunks)) ≠ tmpFilename self uuid →
  r = Md5Object (Crypto.md5_hex (concat chunks))
        (Z.of_nat (length (concat chunks)))
  ∧ Fs.lookup_node (files w1) (getFilepath self (md5_of r))
    = Some (File (concat chunks))
  ∧ (has self (md5_of r) w1).1 = Ok true
  ∧ ((∀ range, getRangeLength range = range.2 - range.1) →
     (get getRangeLength self (md5_of r)
        (0, Z.of_nat (length (concat chunks))) w1).1
     = Ok (concat chunks)).
Proof.
  intros H Hfree Hne.
  apply putStream_cases in H
    as [(_ & Hr & _)
       |(_ & [(e & Hr & _)
             |[([Hsome|Heq] & _)
              |(_ & _ & _ & _ & [(e & Hr & _)|(Hr & _ & Hfp)])]])];
    try done.
  - rewrite Hfree in Hsome. by destruct Hsome.
  - inversion Hr; subst r. cbn [md5_of]. split; [done|]. split; [done|].
    split.
    + unfold has. rewrite existsP_run, Hfp. cbn [fst].
      by rewrite bool_decide_eq_true_2 by (by eexists).
    + intros Hgrl. apply get_whole_file; [done|]. rewrite Hgrl. simpl. lia.
Qed.

Lemma putStream_stores_the_stream_witness :
  Fs.lookup_node
    (files (putStream example_store "u1" [bytes_of "a"; bytes_of "bc"]
              tmp_world).2)
    "root/90/01/50/900150983cd24fb0d6963f7d28e17f72"
  = Some (File (bytes_of "abc")).
Proof.
  destruct (putStream_stores_the_stream (λ r, r.2 - r.1) example_store "u1"
              [bytes_of "a"; bytes_of "bc"] tmp_world
              (putStream example_store "u1" [bytes_of "a"; bytes_of "bc"]
                 tmp_world).2
              (Md5Object "900150983cd24fb0d6963f7d28e17f72" 3))
    as (_ & H & _).
  - vm_compute. reflexivity.
  - vm_compute. reflexivity.
  - vm_compute. discriminate.
  - exact H.
Defined.

(** X14: a streamed put that is rejected, the staging path having been
    free, has either written nothing at all (the staging file could not be
    opened) or has left the staging file behind, holding the whole stream;
    in both cases no regular file has appeared at the shard path. *)
Theorem putStream_rejected_leaves_staging (self : FsBlobStorage)
    (uuid : string) (chunks : list (list byte)) (w w1 : world) (e : error) :
  putStream self uuid chunks w = (Err e, w1) →
  Fs.lookup_node (files w) (tmpFilename self uuid) = None →
  files w1 = files w
  ∨ (Fs.lookup_node (files w1) (tmpFilename self uuid)
     = Some (File (concat chunks))
     ∧ ∀ x, Fs.lookup_node (files w1)
              (getFilepath self (Crypto.md5_hex (concat chunks)))
            ≠ Some (File x)).
Proof.
  intros H Htmp.
  apply putStream_cases in H
    as [(Hsome & _)
       |(_ & [(e' & _ & Hfiles)
             |[(_ & Hr & _)
              |(_ & _ & _ & _ & [(e' & _ & Hleft & Hfp)|(Hr & _)])]])];
    try done.
  - rewrite Htmp in Hsome. by destruct Hsome.
  - by left.
  - by right.
Qed.

Lemma putStream_rejected_leaves_staging_witness :
  let blocked := mkWorld {["/tmp" := Dir; "root" := File []]} [] in
  Fs.lookup_node
    (files (putStream example_store "u1" [bytes_of "a"; bytes_of "bc"]
              blocked).2) "/tmp/u1"
  = Some (File (bytes_of "abc")).
Proof.
  cbv zeta.
  destruct (putStream_rejected_leaves_staging example_store "u1"
              [bytes_of "a"; bytes_of "bc"]
              (mkWorld {["/tmp" := Dir; "root" := File []]} [])
              (putStream example_store "u1" [bytes_of "a"; bytes_of "bc"]
                 (mkWorld {["/tmp" := Dir; "root" := File []]} [])).2
              (SystemError ENOTDIR "mkdir" "root/90/01/50"))
    as [Hsame|[H _]].
  - vm_compute. reflexivity.
  - vm_compute. reflexivity.
  - exfalso.
    assert (Hd : files (putStream example_store "u1"
                          [bytes_of "a"; bytes_of "bc"]
                          (mkWorld {["/tmp" := Dir; "root" := File []]} [])).2
                 !! "/tmp/u1" = Some (File (bytes_of "abc")))
      by (vm_compute; reflexivity).
    rewrite Hsame in Hd. vm_compute in Hd. discriminate.
  - exact H.
Defined.

(** X15: a streamed put that resolves while a regular file already sits
    at the shard path of the stream's digest leaves the disk exactly as it
    was: the staging file is gone again and the file at the shard path,
    whatever it holds, is not rewritten. *)
Theorem putStream_of_stored_changes_nothing (self : FsBlobStorage)
    (uuid : string) (chunks : list (list byte)) (w w1 : world)
    (r : put_value) (x : list byte) :
  putStream self uuid chunks w = (Ok r, w1) →
  Fs.lookup_node (files w)
    (getFilepath self (Crypto.md5_hex (concat chunks))) = Some (File x) →
  r = Md5Object (Crypto.md5_hex (concat chunks))
        (Z.of_nat (length (concat chunks)))
  ∧ ∀ q, Fs.lookup_node (files w1) q = Fs.lookup_node (files w) q.
Proof.
  intros H Hx.
  apply putStream_cases in H
    as [(_ & Hr & _)
       |(Htmp & [(e & Hr & _)
                |[(_ & Hr & Hgone & Hsame)|(Hnone & _)]])];
    try done.
  - inversion Hr; subst r. split; [done|]. intros q.
    destruct (decide (q = tmpFilename self uuid)) as [->|Hq].
    + by rewrite Hgone, Htmp.
    + by apply Hsame.
  - by rewrite Hx in Hnone.
Qed.

Lemma putStream_of_stored_changes_nothing_witness :
  let stored := mkWorld (files (put example_store "u0"
                                  (Buffer (bytes_of "abc")) tmp_world).2) [] in
  Fs.lookup_node
    (files (putStream example_store "u1" [bytes_of "ab"; bytes_of "c"]
              stored).2) "/tmp/u1"
  = None.
Proof.
  cbv zeta.
  destruct (putStream_of_stored_changes_nothing example_store "u1"
              [bytes_of "ab"; bytes_of "c"]
              (mkWorld (files (put example_store "u0"
                                 (Buffer (bytes_of "abc")) tmp_world).2) [])
              (putStream example_store "u1" [bytes_of "ab"; bytes_of "c"]
                 (mkWorld (files (put example_store "u0"
                                    (Buffer (bytes_of "abc")) tmp_world).2)
                    [])).2
              (Md5Object "900150983cd24fb0d6963f7d28e17f72" 3)
              (bytes_of "abc")) as (_ & H).
  - vm_compute. reflexivity.
  - vm_compute. reflexivity.
  - rewrite H. vm_compute. reflexivity.
Defined.



(** ** Paths and digests of what is stored *)

(** X17: with at least one level of sharding, the file of a hexadecimal
    identifier at least [2 * depth] characters long lies directly in its
    shard directory: the directory that the buffer put makes
    ([getDirpath]) is the one the streamed put makes ([path.dirname] of
    the file path). *)
Theorem shard_directory_is_dirname (self : FsBlobStorage) (id : string) :
  is_hex id = true → (1 ≤ depth self)%nat →
  (2 * depth self ≤ String.length id)%nat →
  Path.dirname (getFilepath self id) = getDirpath self id
  ∧ getFilepath self id = getDirpath self id +:+ "/" +:+ id.
Proof.
  intros Hid Hd Hlen.
  destruct (getFilepath_in_getDirpath self id Hid Hd Hlen) as [H1 H2].
  by split.
Qed.

Lemma shard_directory_is_dirname_witness :
  Path.dirname (getFilepath example_store "900150983cd24fb0d6963f7d28e17f72")
  = getDirpath example_store "900150983cd24fb0d6963f7d28e17f72".
Proof.
  destruct (shard_directory_is_dirname example_store
              "900150983cd24fb0d6963f7d28e17f72") as (H & _).
  - reflexivity.
  - vm_compute. lia.
  - vm_compute. lia.
  - exact H.
Defined.

(** X18: whatever a put resolves with carries the MD5 digest of the bytes
    it was given (the buffer, or the chunks of the stream in order): 32
    lowercase hexadecimal characters; and a byte count, when there is one,
    is the number of those bytes. *)
Theorem put_resolves_with_digest (self : FsBlobStorage) (uuid : string)
    (c : content) (w w1 : world) (r : put_value) :
  put self uuid c w = (Ok r, w1) →
  let bytes := match c with
               | Buffer b => b
               | Readable chunks => concat chunks
               end in
  md5_of r = Crypto.md5_hex bytes
  ∧ is_hex (md5_of r) = true
  ∧ String.length (md5_of r) = 32%nat
  ∧ ∀ md5 byteCount, r = Md5Object md5 byteCount →
      byteCount = Z.of_nat (length bytes).
Proof.
  intros H. cbv zeta.
  assert (Hr : md5_of r = Crypto.md5_hex
                 match c with Buffer b => b | Readable chunks => concat chunks end
    ∧ ∀ md5 byteCount, r = Md5Object md5 byteCount →
        byteCount = Z.of_nat (length
                 match c with Buffer b => b | Readable chunks => concat chunks end)).
  { destruct c as [b|chunks].
    - apply put_buffer_ok_inv in H as [(-> & _)|(-> & _)];
        (split; [done|]); intros md5 n Hr; by inversion Hr.
    - simpl in H. apply putStream_ok_inv in H as (-> & _).
      split; [done|]. intros md5 n Hr. by inversion Hr. }
  destruct Hr as [Hmd5 Hcount]. split; [done|].
  rewrite Hmd5. unfold Crypto.md5_hex.
  destruct (digest_hex_format (Crypto.update Crypto.createHash
              match c with Buffer b => b | Readable chunks => concat chunks end))
    as [Hhex Hlen].
  by repeat split.
Qed.

Lemma put_resolves_with_digest_witness :
  String.length (md5_of (Md5Object "900150983cd24fb0d6963f7d28e17f72" 3))
  = 32%nat.
Proof.
  destruct (put_resolves_with_digest example_store "u1"
              (Readable [bytes_of "a"; bytes_of "bc"]) tmp_world
              (put example_store "u1"
                 (Readable [bytes_of "a"; bytes_of "bc"]) tmp_world).2
              (Md5Object "900150983cd24fb0d6963f7d28e17f72" 3))
    as (_ & _ & H & _).
  - vm_compute. reflexivity.
  - exact H.
Defined.
